(** * Fixed-income dashboard: the aggregation pipeline of [app.py]

    A shallow embedding of [process_data] (app.py, lines 19-44) together with
    the pandas operations it calls, and the properties of the four derived
    views: top holdings, country exposure, rating exposure and top issuers.

    Modelling conventions.
    - A worksheet cell is a string, a number or a missing value (NaN).
    - Weights are float64 in pandas; here they are exact rationals [Q], so
      rounding, infinities and overflow are outside the model.  Sums are
      compared with [==] on [Q].
    - The text-to-float reader used by [pd.to_numeric] is a parameter
      [str_to_float] of the development: every general statement holds for
      any reader.  [decimal_literal] is a reader of plain decimal literals
      used to run concrete scenarios.
    - pandas semantics are those of pandas 1.4 and later: [groupby] drops
      missing keys and sorts the remaining keys, [sum] skips NaN (an all-NaN
      group sums to 0), [nlargest] ranks NaN rows after all others and keeps
      them while there is room, [sort_values] puts NaN last.
    - numpy's default sort kind does not fix the order of equal values; the
      model sorts stably, which is what numpy does on short arrays.  No
      general statement on the grouped views depends on that order.
    - [create_pie_chart], [create_bar_chart], [load_data] and
      [create_dashboard] are embedded as well.  A chart is the record of
      the arguments handed to plotly, a figure the grid of subplots with
      the traces added to it; the upload and the Excel reader are inputs
      of the dashboard. *)

From Stdlib Require Import List String Ascii Bool Arith Lia ZArith QArith Lqa.
From Stdlib Require Import Permutation Sorted.
Import ListNotations.

Set Implicit Arguments.

(** ** Cells, rows and frames *)

Inductive cell : Type :=
| CStr (s : string)
| CNum (q : Q)
| CNaN.

(** Python's [==] on two cells: NaN equals nothing, not even itself. *)
Definition cell_eqb (a b : cell) : bool :=
  match a, b with
  | CStr s, CStr t => String.eqb s t
  | CNum p, CNum q => Qeq_bool p q
  | _, _ => false
  end.

Definition notna (c : cell) : bool :=
  match c with
  | CNaN => false
  | _ => true
  end.

(** The order in which [groupby(sort=True)] lists its keys: numbers before
    strings, numbers by value, strings by code point. *)
Definition cell_leb (a b : cell) : bool :=
  match a, b with
  | CNum p, CNum q => Qle_bool p q
  | CNum _, _ => true
  | CStr _, CNum _ => false
  | CStr s, CStr t => String.leb s t
  | CStr _, CNaN => true
  | CNaN, CNaN => true
  | CNaN, _ => false
  end.

(** What [pd.read_excel] hands over: header labels and the rows of cells
    under them, with the default index 0, 1, 2, ... *)
Record DataFrame : Type := mkDataFrame {
  columns : list string;
  values : list (list cell)
}.

(** A row read through the six labels that [process_data] assigns.  The
    type of [Weight] changes when the column is coerced. *)
Record Row (W : Type) : Type := mkRow {
  Security : cell;
  Weight : W;
  Rating : cell;
  Country : cell;
  Issuer : cell;
  SecurityType : cell
}.

(** Rows paired with their index label. *)
Definition Frame (W : Type) : Type := list (nat * Row W).

Definition LABELS : list string :=
  ["Security"; "Weight"; "Rating"; "Country"; "Issuer"; "SecurityType"]%string.

Fixpoint get_loc (label : string) (cols : list string) : option nat :=
  match cols with
  | [] => None
  | c :: rest =>
      if String.eqb c label then Some 0%nat
      else option_map S (get_loc label rest)
  end.

(** [row[label]]: the cell under a label; a row that is too short reads as
    missing there. *)
Definition at_label (cols : list string) (r : list cell) (label : string) : cell :=
  match get_loc label cols with
  | Some i => nth i r CNaN
  | None => CNaN
  end.

Definition row_of (cols : list string) (r : list cell) : Row cell :=
  {| Security := at_label cols r "Security";
     Weight := at_label cols r "Weight";
     Rating := at_label cols r "Rating";
     Country := at_label cols r "Country";
     Issuer := at_label cols r "Issuer";
     SecurityType := at_label cols r "SecurityType" |}.

Definition frame_of (df : DataFrame) : Frame cell :=
  combine (seq 0 (List.length (values df))) (map (row_of (columns df)) (values df)).

(** ** Output and exceptions *)

Inductive event : Type :=
| PrintProcessing
| PrintCount (n : nat).

(** [ValueError: Length mismatch: Expected axis has .. elements, new values
    have .. elements] *)
Inductive exn : Type :=
| LengthMismatch (axis_len new_len : nat).

Definition M (A : Type) : Type := (list event * (exn + A))%type.

Definition ret {A} (a : A) : M A := ([], inr a).

Definition bind {A B} (m : M A) (k : A -> M B) : M B :=
  match m with
  | (out, inl e) => (out, inl e)
  | (out, inr a) => let (out', r) := k a in (out ++ out', r)
  end.

Definition print (e : event) : M unit := ([e], inr tt).

Definition raise {A} (e : exn) : M A := ([], inl e).

Notation "x <- m ;; k" := (bind m (fun x => k))
  (at level 61, m at next level, right associativity).

(** The frame once its columns carry [LABELS]. *)
Definition relabel (df : DataFrame) : DataFrame :=
  {| columns := LABELS; values := values df |}.

(** [df.columns = names] *)
Definition set_columns (df : DataFrame) (names : list string) : M DataFrame :=
  if (List.length names =? List.length (columns df))%nat
  then ret {| columns := names; values := values df |}
  else raise (LengthMismatch (List.length (columns df)) (List.length names)).

(** ** Filtering: [df[df['SecurityType'] == 'Corporate Bonds']] *)

Definition eq_mask (col : list cell) (lit : string) : list bool :=
  map (fun c => cell_eqb c (CStr lit)) col.

Fixpoint boolean_index {A} (rows : list A) (mask : list bool) : list A :=
  match rows, mask with
  | r :: rows', true :: mask' => r :: boolean_index rows' mask'
  | _ :: rows', false :: mask' => boolean_index rows' mask'
  | _, _ => []
  end.

Definition corporate_bonds (fr : Frame cell) : Frame cell :=
  boolean_index fr (eq_mask (map (fun ir => SecurityType (snd ir)) fr) "Corporate Bonds").

(** ** Sorting *)

Section Sorting.
Variable A : Type.
Variable key : A -> Q.

Fixpoint insert_sorted (x : A) (l : list A) : list A :=
  match l with
  | [] => [x]
  | y :: t =>
      if Qle_bool (key x) (key y) then x :: y :: t
      else y :: insert_sorted x t
  end.

(** A stable ascending sort: equal keys keep their order. *)
Fixpoint stable_sort (l : list A) : list A :=
  match l with
  | [] => []
  | x :: t => insert_sorted x (stable_sort t)
  end.
End Sorting.

Section SortValues.
Variable A : Type.
Variable val : A -> option Q.

Definition present (a : A) : bool :=
  match val a with
  | Some _ => true
  | None => false
  end.

Definition key_of (a : A) : Q :=
  match val a with
  | Some q => q
  | None => 0
  end.

Definition dropna (l : list A) : list A := filter present l.

Definition isna_rows (l : list A) : list A := filter (fun a => negb (present a)) l.

(** [sort_values(ascending=..)], through pandas' [nargsort]: the values
    that are not NaN are sorted (reversed before and after the sort when
    descending), and the NaN entries follow in their original order. *)
Definition sort_values (ascending : bool) (l : list A) : list A :=
  (if ascending then stable_sort key_of (dropna l)
   else rev (stable_sort key_of (rev (dropna l))))
  ++ isna_rows l.

(** [nlargest(n)] with [keep='first']: the first [n] entries of the
    descending order, NaN entries last.  pandas returns
    [sort_values(ascending=False).head(n)] when [n >= len]; otherwise it
    ranks the entries that are not NaN with a stable sort of the negated
    values, appends the NaN entries and cuts to [n], which is the same
    list. *)
Definition nlargest (n : nat) (l : list A) : list A :=
  firstn n (sort_values false l).
End SortValues.

(** ** Grouped sums: [df.groupby(col)['Weight'].sum()] *)

Section GroupBy.
Variable key : Row (option Q) -> cell.

(** Sum of the weights that are present. *)
Fixpoint sum_present (fr : Frame (option Q)) : Q :=
  match fr with
  | [] => 0
  | (_, r) :: rest =>
      match Weight r with
      | Some w => w + sum_present rest
      | None => sum_present rest
      end
  end.

Fixpoint uniques (ks : list cell) : list cell :=
  match ks with
  | [] => []
  | k :: rest =>
      let u := uniques rest in
      if existsb (cell_eqb k) u then u else k :: u
  end.

Fixpoint insert_key (k : cell) (ks : list cell) : list cell :=
  match ks with
  | [] => [k]
  | k' :: rest =>
      if cell_leb k k' then k :: k' :: rest
      else k' :: insert_key k rest
  end.

Fixpoint sort_keys (ks : list cell) : list cell :=
  match ks with
  | [] => []
  | k :: rest => insert_key k (sort_keys rest)
  end.

(** The group keys: the distinct cells of the column that are not
    missing, in sorted order. *)
Definition group_keys (fr : Frame (option Q)) : list cell :=
  sort_keys (uniques (filter notna (map (fun ir => key (snd ir)) fr))).

Definition group_rows (k : cell) (fr : Frame (option Q)) : Frame (option Q) :=
  filter (fun ir => cell_eqb (key (snd ir)) k) fr.

Definition groupby_sum (fr : Frame (option Q)) : list (cell * Q) :=
  map (fun k => (k, sum_present (group_rows k fr))) (group_keys fr).
End GroupBy.

Definition series_val (kv : cell * Q) : option Q := Some (snd kv).

(** ** The four views *)

Record Views : Type := mkViews {
  top_holdings : list (nat * (cell * option Q));
  country_exposure : list (cell * Q);
  rating_exposure : list (cell * Q);
  top_issuers : list (cell * Q)
}.

Definition row_weight (ir : nat * Row (option Q)) : option Q := Weight (snd ir).

Definition holding (ir : nat * Row (option Q)) : nat * (cell * option Q) :=
  (fst ir, (Security (snd ir), Weight (snd ir))).

(** [df.nlargest(10, 'Weight')[['Security', 'Weight']]] *)
Definition calc_top_holdings (fr : Frame (option Q)) : list (nat * (cell * option Q)) :=
  map holding (nlargest row_weight 10 fr).

(** [df.groupby('Country')['Weight'].sum().sort_values(ascending=False)] *)
Definition calc_country_exposure (fr : Frame (option Q)) : list (cell * Q) :=
  sort_values series_val false (groupby_sum (@Country _) fr).

(** [df.groupby('Rating')['Weight'].sum().sort_values(ascending=False)] *)
Definition calc_rating_exposure (fr : Frame (option Q)) : list (cell * Q) :=
  sort_values series_val false (groupby_sum (@Rating _) fr).

(** [df.groupby('Issuer')['Weight'].sum().nlargest(10).sort_values(ascending=True)] *)
Definition calc_top_issuers (fr : Frame (option Q)) : list (cell * Q) :=
  sort_values series_val true (nlargest series_val 10 (groupby_sum (@Issuer _) fr)).

(** ** A reader of decimal literals *)

Definition digit_of (c : ascii) : option Z :=
  let n := nat_of_ascii c in
  if ((48 <=? n) && (n <=? 57))%nat then Some (Z.of_nat (n - 48)) else None.

(** Reads [digits[.digits]] into [num # den]; [seen] records that a digit
    was read, [frac] that the point was passed. *)
Fixpoint read_decimal (s : string) (num : Z) (den : positive) (frac seen : bool)
  : option Q :=
  match s with
  | EmptyString => if seen then Some (num # den) else None
  | String c rest =>
      match digit_of c with
      | Some d =>
          read_decimal rest (10 * num + d)%Z (if frac then (10 * den)%positive else den)
            frac true
      | None =>
          if (Ascii.eqb c "."%char && negb frac)%bool
          then read_decimal rest num den true seen
          else None
      end
  end.

Definition decimal_literal (s : string) : option Q :=
  match s with
  | String "-"%char rest => option_map Qopp (read_decimal rest 0 1 false false)
  | String "+"%char rest => read_decimal rest 0 1 false false
  | _ => read_decimal s 0 1 false false
  end.

(** ** The pipeline *)

Section Pipeline.
(** The reader [pd.to_numeric] applies to text. *)
Variable str_to_float : string -> option Q.

(** [pd.to_numeric(x, errors='coerce')] on one cell. *)
Definition to_numeric (c : cell) : option Q :=
  match c with
  | CStr s => str_to_float s
  | CNum q => Some q
  | CNaN => None
  end.

Definition coerce_row (r : Row cell) : Row (option Q) :=
  {| Security := Security r;
     Weight := to_numeric (Weight r);
     Rating := Rating r;
     Country := Country r;
     Issuer := Issuer r;
     SecurityType := SecurityType r |}.

(** [df['Weight'] = pd.to_numeric(df['Weight'], errors='coerce')] *)
Definition coerce_weight (fr : Frame cell) : Frame (option Q) :=
  map (fun ir => (fst ir, coerce_row (snd ir))) fr.

Definition calc_views (fr : Frame (option Q)) : Views :=
  {| top_holdings := calc_top_holdings fr;
     country_exposure := calc_country_exposure fr;
     rating_exposure := calc_rating_exposure fr;
     top_issuers := calc_top_issuers fr |}.

(** The filtered, coerced table that [process_data] computes its views
    from. *)
Definition filtered (df : DataFrame) : Frame (option Q) :=
  coerce_weight (corporate_bonds (frame_of (relabel df))).

(** [process_data(df)].  The assignment to [df.columns] changes the
    caller's frame, which is returned next to the views; the filtered
    frame is a new object. *)
Definition process_data (df : DataFrame) : M (DataFrame * Views) :=
  _ <- print PrintProcessing ;;
  df <- set_columns df LABELS ;;
  let bonds := corporate_bonds (frame_of df) in
  _ <- print (PrintCount (List.length bonds)) ;;
  let bonds := coerce_weight bonds in
  ret (df, calc_views bonds).
End Pipeline.

(** ** Reading an outcome *)

Definition views_of (m : M (DataFrame * Views)) : option Views :=
  match snd m with
  | inr (_, v) => Some v
  | inl _ => None
  end.

Definition raised (m : M (DataFrame * Views)) : option exn :=
  match snd m with
  | inr _ => None
  | inl e => Some e
  end.

(** ** Charts: [create_pie_chart] and [create_bar_chart] *)

Definition colors_pie : list string :=
  ["#636EFA"; "#EF553B"; "#00CC96"; "#AB63FA"; "#FFA15A"]%string.

Definition colors_bar : list string :=
  ["#1f77b4"; "#ff7f0e"; "#2ca02c"; "#d62728"; "#9467bd"; "#8c564b";
   "#e377c2"; "#7f7f7f"; "#bcbd22"; "#17becf"]%string.

(** The keyword arguments handed to [go.Pie]. *)
Record Pie : Type := mkPie {
  pie_labels : list cell;
  pie_values : list Q;
  pie_name : string;
  pie_textposition : string;
  pie_textinfo : string;
  pie_insidetextorientation : string;
  pie_showlegend : bool;
  pie_pull : list Q;
  pie_hoverinfo : string;
  pie_hovertemplate : string;
  pie_marker_colors : list string
}.

(** [create_pie_chart(data, title, colors)]; [data] is a Series, its index
    the labels and its values the slices. *)
Definition create_pie_chart (data : list (cell * Q)) (title : string)
           (colors : list string) : Pie :=
  {| pie_labels := map fst data;
     pie_values := map snd data;
     pie_name := title;
     pie_textposition := "inside";
     pie_textinfo := "percent+label";
     pie_insidetextorientation := "radial";
     pie_showlegend := false;
     pie_pull := map (fun i => if (i <? 3)%nat then 1 # 10 else 0)
                     (seq 0 (List.length data));
     pie_hoverinfo := "label+percent+value";
     pie_hovertemplate := "%{label}: %{value:.2f}%<extra></extra>";
     pie_marker_colors := colors |}.

(** What a bar chart puts along one axis: the index of the Series or its
    values. *)
Inductive axis_data (V : Type) : Type :=
| Categories (l : list cell)
| Magnitudes (l : list V).

Arguments Categories {V} l.
Arguments Magnitudes {V} l.

(** The keyword arguments handed to [go.Bar]. *)
Record Bar (V : Type) : Type := mkBar {
  bar_y : axis_data V;
  bar_x : axis_data V;
  bar_orientation : string;
  bar_name : string;
  bar_text : list V;
  bar_texttemplate : string;
  bar_textposition : string;
  bar_hovertemplate : string;
  bar_marker_color : list string
}.

(** [create_bar_chart(data, title, is_horizontal, colors)] *)
Definition create_bar_chart {V : Type} (data : list (cell * V)) (title : string)
           (is_horizontal : bool) (colors : list string) : Bar V :=
  {| bar_y := if is_horizontal then Categories (map fst data)
              else Magnitudes (map snd data);
     bar_x := if is_horizontal then Magnitudes (map snd data)
              else Categories (map fst data);
     bar_orientation := if is_horizontal then "h" else "v";
     bar_name := title;
     bar_text := map snd data;
     bar_texttemplate := "%{text:.2f}%";
     bar_textposition := "outside";
     bar_hovertemplate := if is_horizontal then "%{y}: %{x:.2f}%<extra></extra>"
                          else "%{x}: %{y:.2f}%<extra></extra>";
     bar_marker_color := colors |}.

(** ** The figure *)

Inductive subplot_type : Type :=
| Domain
| XY.

Inductive trace : Type :=
| PieTrace (p : Pie)
| BarTrace (V : Type) (b : Bar V).

Arguments BarTrace {V} b.

(** The subplot type a trace can be drawn in. *)
Definition trace_subplot (t : trace) : subplot_type :=
  match t with
  | PieTrace _ => Domain
  | BarTrace _ => XY
  end.

Definition subplot_type_eqb (a b : subplot_type) : bool :=
  match a, b with
  | Domain, Domain => true
  | XY, XY => true
  | _, _ => false
  end.

Inductive axis : Type :=
| XAxis
| YAxis.

(** The settings of [fig.update_layout]. *)
Record Layout : Type := mkLayout {
  title_text : string;
  height : nat;
  width : nat;
  showlegend : bool;
  font : string * nat * string;
  plot_bgcolor : string;
  paper_bgcolor : string;
  margin : nat * nat * nat * nat;
  title_x : Q;
  title_font : nat * string;
  title_pad : nat * nat
}.

Record Figure : Type := mkFigure {
  fig_specs : list (list (option (subplot_type * nat)));
  fig_subplot_titles : list string;
  fig_vertical_spacing : Q;
  fig_row_heights : list Q;
  fig_column_widths : list Q;
  fig_traces : list (trace * (nat * nat));
  fig_layout : option Layout;
  fig_axis_titles : list (axis * (nat * nat) * string)
}.

(** What can go wrong in [create_dashboard]. *)
Inductive error : Type :=
| StopIteration
| ReadFailure (msg : string)
| ProcessFailure (e : exn)
| NoSubplotAt (row col : nat)
| IncompatibleTrace (row col : nat).

(** What the dashboard prints and displays, in order. *)
Inductive line : Type :=
| PrintCreating
| PrintPleaseUpload
| Printed (e : event)
| PrintDisplaying
| PrintErrorOccurred (e : error)
| PrintCheckFile
| ShowFigure (fig : Figure).

Definition IO (A : Type) : Type := (list line * (error + A))%type.

Definition io_ret {A} (a : A) : IO A := ([], inr a).

Definition io_bind {A B} (m : IO A) (k : A -> IO B) : IO B :=
  match m with
  | (out, inl e) => (out, inl e)
  | (out, inr a) => let (out', r) := k a in (out ++ out', r)
  end.

Definition emit (l : line) : IO unit := ([l], inr tt).

Definition throw {A} (e : error) : IO A := ([], inl e).

(** [try: body except Exception as e: handler(e)] *)
Definition try_except {A} (body : IO A) (handler : error -> IO A) : IO A :=
  match body with
  | (out, inl e) => let (out', r) := handler e in (out ++ out', r)
  | (out, inr a) => (out, inr a)
  end.

(** A call of [process_data] inside the dashboard: its output is printed
    and its exception propagates. *)
Definition run_process {A} (m : M A) : IO A :=
  match m with
  | (out, inl e) => (map Printed out, inl (ProcessFailure e))
  | (out, inr a) => (map Printed out, inr a)
  end.

Notation "x <~ m ;; k" := (io_bind m (fun x => k))
  (at level 61, m at next level, right associativity).

(** [make_subplots(rows=3, cols=2, specs=..., subplot_titles=..., ...)] *)
Definition make_subplots (specs : list (list (option (subplot_type * nat))))
           (subplot_titles : list string) (vertical_spacing : Q)
           (row_heights column_widths : list Q) : Figure :=
  {| fig_specs := specs;
     fig_subplot_titles := subplot_titles;
     fig_vertical_spacing := vertical_spacing;
     fig_row_heights := row_heights;
     fig_column_widths := column_widths;
     fig_traces := [];
     fig_layout := None;
     fig_axis_titles := [] |}.

(** The subplot at a grid position counted from (1, 1). *)
Definition subplot_at (fig : Figure) (row col : nat) : option (subplot_type * nat) :=
  match row, col with
  | S r, S c =>
      match nth_error (fig_specs fig) r with
      | Some cells =>
          match nth_error cells c with
          | Some cell => cell
          | None => None
          end
      | None => None
      end
  | _, _ => None
  end.

(** [fig.add_trace(t, row, col)]: plotly refuses a position without a
    subplot and a trace that does not fit the subplot's type. *)
Definition add_trace (fig : Figure) (t : trace) (row col : nat) : IO Figure :=
  match subplot_at fig row col with
  | None => throw (NoSubplotAt row col)
  | Some (ty, _) =>
      if subplot_type_eqb ty (trace_subplot t)
      then io_ret {| fig_specs := fig_specs fig;
                     fig_subplot_titles := fig_subplot_titles fig;
                     fig_vertical_spacing := fig_vertical_spacing fig;
                     fig_row_heights := fig_row_heights fig;
                     fig_column_widths := fig_column_widths fig;
                     fig_traces := fig_traces fig ++ [(t, (row, col))];
                     fig_layout := fig_layout fig;
                     fig_axis_titles := fig_axis_titles fig |}
      else throw (IncompatibleTrace row col)
  end.

Definition update_layout (fig : Figure) (l : Layout) : Figure :=
  {| fig_specs := fig_specs fig;
     fig_subplot_titles := fig_subplot_titles fig;
     fig_vertical_spacing := fig_vertical_spacing fig;
     fig_row_heights := fig_row_heights fig;
     fig_column_widths := fig_column_widths fig;
     fig_traces := fig_traces fig;
     fig_layout := Some l;
     fig_axis_titles := fig_axis_titles fig |}.

(** [fig.update_xaxes(title_text=.., row=.., col=..)] and
    [fig.update_yaxes(..)] *)
Definition update_axis (fig : Figure) (a : axis) (title : string) (row col : nat)
  : Figure :=
  {| fig_specs := fig_specs fig;
     fig_subplot_titles := fig_subplot_titles fig;
     fig_vertical_spacing := fig_vertical_spacing fig;
     fig_row_heights := fig_row_heights fig;
     fig_column_widths := fig_column_widths fig;
     fig_traces := fig_traces fig;
     fig_layout := fig_layout fig;
     fig_axis_titles := fig_axis_titles fig ++ [(a, (row, col), title)] |}.

Definition dashboard_layout : Layout :=
  {| title_text := "Fixed Income Fund Analysis Dashboard";
     height := 1600;
     width := 1200;
     showlegend := false;
     font := ("Arial"%string, 14%nat, "black"%string);
     plot_bgcolor := "#f2f2f2";
     paper_bgcolor := "#ffffff";
     margin := (60%nat, 60%nat, 160%nat, 80%nat);
     title_x := 1 # 2;
     title_font := (22%nat, "darkblue"%string);
     title_pad := (50%nat, 20%nat) |}.

(** [top_holdings.set_index('Security')['Weight']] *)
Definition holdings_series (top : list (nat * (cell * option Q)))
  : list (cell * option Q) :=
  map snd top.

(** ** Loading and the dashboard *)

Section Dashboard.
(** The reader [pd.to_numeric] applies to text. *)
Variable str_to_float : string -> option Q.

(** [pd.read_excel(io.BytesIO(content), skiprows=n)]: the frame, or the
    message of the exception it raises. *)
Variable read_excel : list Byte.byte -> nat -> string + DataFrame.

(** [load_data()]; [uploaded] is what [files.upload()] returns, the
    uploaded files by name in upload order. *)
Definition load_data (uploaded : list (string * list Byte.byte)) : IO DataFrame :=
  _ <~ emit PrintPleaseUpload ;;
  match uploaded with
  | [] => throw StopIteration
  | (file_name, content) :: _ =>
      match read_excel content 6 with
      | inl msg => throw (ReadFailure msg)
      | inr df => io_ret df
      end
  end.

(** [create_dashboard()] *)
Definition create_dashboard (uploaded : list (string * list Byte.byte)) : IO unit :=
  try_except
    (_ <~ emit PrintCreating ;;
     df <~ load_data uploaded ;;
     result <~ run_process (process_data str_to_float df) ;;
     let v := snd result in
     let fig :=
       make_subplots
         [ [Some (Domain, 1%nat); Some (Domain, 1%nat)];
           [Some (XY, 2%nat); None];
           [Some (XY, 2%nat); None] ]
         ["Country Exposure"; "Rating Exposure"; "Top 10 Issuers";
          "Top 10 Holdings by Weight"]%string
         (12 # 100) [4 # 10; 3 # 10; 3 # 10] [6 # 10; 4 # 10] in
     fig <~ add_trace fig
              (PieTrace (create_pie_chart (country_exposure v) "Country Exposure"
                                          colors_pie)) 1 1 ;;
     fig <~ add_trace fig
              (PieTrace (create_pie_chart (rating_exposure v) "Rating Exposure"
                                          colors_pie)) 1 2 ;;
     fig <~ add_trace fig
              (BarTrace (create_bar_chart (top_issuers v) "Top 10 Issuers" true
                                          colors_bar)) 2 1 ;;
     fig <~ add_trace fig
              (BarTrace (create_bar_chart (holdings_series (top_holdings v))
                                          "Top 10 Holdings" false colors_bar)) 3 1 ;;
     let fig := update_layout fig dashboard_layout in
     let fig := update_axis fig YAxis "Issuer" 2 1 in
     let fig := update_axis fig XAxis "Weight (%)" 2 1 in
     let fig := update_axis fig XAxis "Security" 3 1 in
     let fig := update_axis fig YAxis "Weight (%)" 3 1 in
     _ <~ emit PrintDisplaying ;;
     emit (ShowFigure fig))
    (fun e =>
       _ <~ emit (PrintErrorOccurred e) ;;
       emit PrintCheckFile).
End Dashboard.

(** ** Vocabulary of the statements *)

Inductive Subseq {A : Type} : list A -> list A -> Prop :=
| Subseq_nil : forall l, Subseq [] l
| Subseq_skip : forall x l' l, Subseq l' l -> Subseq l' (x :: l)
| Subseq_take : forall x l' l, Subseq l' l -> Subseq (x :: l') (x :: l).

#[local] Hint Constructors Subseq : core.

Section Orders.
Variable A : Type.
Variable key : A -> Q.

(** Ascending by key; among equal keys, ordered by [S]. *)
Definition asc_then (S : A -> A -> Prop) (a b : A) : Prop :=
  key a < key b \/ (key a == key b /\ S a b).

(** Descending by key; among equal keys, ordered by [S]. *)
Definition desc_then (S : A -> A -> Prop) (a b : A) : Prop :=
  key b < key a \/ (key a == key b /\ S a b).
End Orders.

Section OrdersWithNaN.
Variable A : Type.
Variable val : A -> option Q.

(** Values ascending, NaN last; [S] orders equal values and NaN entries. *)
Definition asc_nan_last (S : A -> A -> Prop) (a b : A) : Prop :=
  match val a, val b with
  | Some x, Some y => x < y \/ (x == y /\ S a b)
  | Some _, None => True
  | None, Some _ => False
  | None, None => S a b
  end.

(** Values descending, NaN last; [S] orders equal values and NaN entries. *)
Definition desc_nan_last (S : A -> A -> Prop) (a b : A) : Prop :=
  match val a, val b with
  | Some x, Some y => y < x \/ (x == y /\ S a b)
  | Some _, None => True
  | None, Some _ => False
  | None, None => S a b
  end.


(** The entries [nlargest] leaves out. *)
Definition nlargest_rest (n : nat) (l : list A) : list A :=
  skipn n (sort_values val false l).
End OrdersWithNaN.

Definition by_index {W} (a b : nat * Row W) : Prop := (fst a < fst b)%nat.

Definition index_increasing {W} (fr : Frame W) : Prop :=
  StronglySorted by_index fr.

Definition is_corporate_bond (ir : nat * Row cell) : Prop :=
  SecurityType (snd ir) = CStr "Corporate Bonds".

Definition distinct_cells (a b : cell) : Prop := cell_eqb a b = false.




Definition issuer_sums (fr : Frame (option Q)) : list (cell * Q) :=
  groupby_sum (@Issuer _) fr.

(** The row read by position: cell 0 is Security, ..., cell 5 is
    SecurityType; further cells are not looked at. *)
Definition row_by_position (r : list cell) : Row cell :=
  {| Security := nth 0 r CNaN;
     Weight := nth 1 r CNaN;
     Rating := nth 2 r CNaN;
     Country := nth 3 r CNaN;
     Issuer := nth 4 r CNaN;
     SecurityType := nth 5 r CNaN |}.

Definition no_views : Views :=
  {| top_holdings := []; country_exposure := []; rating_exposure := []; top_issuers := [] |}.

(** ** Tables used in examples *)

Definition scenario : DataFrame :=
  {| columns := ["Name"; "Wgt"; "Rtg"; "Ctry"; "Iss"; "Type"]%string;
     values :=
       [ [CStr "A"; CStr "5"; CStr "AAA"; CStr "US"; CStr "X"; CStr "Corporate Bonds"];
         [CStr "B"; CStr "bad"; CStr "BBB"; CStr "DE"; CStr "Y"; CStr "Corporate Bonds"];
         [CStr "C"; CStr "10"; CStr "AAA"; CStr "US"; CStr "Z"; CStr "Government Bonds"] ] |}.

Definition claimed_scenario_views : Views :=
  {| top_holdings := [(0%nat, (CStr "A", Some 5))];
     country_exposure := [(CStr "US", 5)];
     rating_exposure := [(CStr "AAA", 5)];
     top_issuers := [(CStr "X", 5)] |}.

Definition scenario_views : Views :=
  {| top_holdings := [(0%nat, (CStr "A", Some 5)); (1%nat, (CStr "B", None))];
     country_exposure := [(CStr "US", 5); (CStr "DE", 0)];
     rating_exposure := [(CStr "AAA", 5); (CStr "BBB", 0)];
     top_issuers := [(CStr "Y", 0); (CStr "X", 5)] |}.



Definition government_only : DataFrame :=
  {| columns := ["Name"; "Wgt"; "Rtg"; "Ctry"; "Iss"; "Type"]%string;
     values :=
       [ [CStr "C"; CStr "10"; CStr "AAA"; CStr "US"; CStr "Z"; CStr "Government Bonds"];
         [CStr "D"; CNum 3; CStr "AA"; CStr "FR"; CStr "W"; CStr "corporate bonds"] ] |}.

Definition bond (name : string) (w : cell) (issuer : string) : list cell :=
  [CStr name; w; CStr "AA"; CStr "US"; CStr issuer; CStr "Corporate Bonds"].

(** Twelve corporate bonds of eleven issuers; two bonds weigh the same and
    one has no readable weight. *)
Definition twelve_bonds : DataFrame :=
  {| columns := LABELS;
     values :=
       [ bond "S01" (CNum 1) "I01"; bond "S02" (CNum 7) "I02";
         bond "S03" (CStr "n/a") "I03"; bond "S04" (CNum 4) "I04";
         bond "S05" (CNum 5) "I05"; bond "S06" (CNum 7) "I06";
         bond "S07" (CNum 2) "I07"; bond "S08" (CNum 8) "I08";
         bond "S09" (CNum 9) "I09"; bond "S10" (CNum 10) "I10";
         bond "S11" (CNum 11) "I11"; bond "S12" (CNum 3) "I01" ] |}.

(** ** Further vocabulary *)

(** A worksheet row whose sixth cell is the text "Corporate Bonds". *)
Definition is_corporate_row (r : list cell) : bool :=
  cell_eqb (nth 5 r CNaN) (CStr "Corporate Bonds").


(** Two entries of a Series with different values. *)
Definition different_sums (a b : cell * Q) : Prop := ~ snd a == snd b.

(** The values of the slices a pie pulls out, and of those it does not. *)
Definition pulled_values (c : Pie) : list Q :=
  map fst (filter (fun vp => negb (Qeq_bool (snd vp) 0))
                  (combine (pie_values c) (pie_pull c))).

Definition flat_values (c : Pie) : list Q :=
  map fst (filter (fun vp => Qeq_bool (snd vp) 0)
                  (combine (pie_values c) (pie_pull c))).

(** The bars of a chart as (category, value) pairs, read from whichever
    axes hold them. *)
Definition bar_points {V} (b : Bar V) : option (list (cell * V)) :=
  match bar_y b, bar_x b with
  | Categories c, Magnitudes m => Some (combine c m)
  | Magnitudes m, Categories c => Some (combine c m)
  | _, _ => None
  end.

(** The axis along which a bar chart lists its categories, and the other
    one. *)
Definition category_axis {V} (b : Bar V) : axis :=
  match bar_y b with
  | Categories _ => YAxis
  | Magnitudes _ => XAxis
  end.

Definition value_axis {V} (b : Bar V) : axis :=
  match bar_y b with
  | Categories _ => XAxis
  | Magnitudes _ => YAxis
  end.

Definition is_show (l : line) : bool :=
  match l with
  | ShowFigure _ => true
  | _ => false
  end.

Definition is_error_report (l : line) : bool :=
  match l with
  | PrintErrorOccurred _ => true
  | PrintCheckFile => true
  | _ => false
  end.


(** The figure [create_dashboard] displays for given views. *)
Definition dashboard_figure (v : Views) : Figure :=
  {| fig_specs :=
       [ [Some (Domain, 1%nat); Some (Domain, 1%nat)];
         [Some (XY, 2%nat); None];
         [Some (XY, 2%nat); None] ];
     fig_subplot_titles :=
       ["Country Exposure"; "Rating Exposure"; "Top 10 Issuers";
        "Top 10 Holdings by Weight"]%string;
     fig_vertical_spacing := 12 # 100;
     fig_row_heights := [4 # 10; 3 # 10; 3 # 10];
     fig_column_widths := [6 # 10; 4 # 10];
     fig_traces :=
       [ (PieTrace (create_pie_chart (country_exposure v) "Country Exposure" colors_pie),
          (1%nat, 1%nat));
         (PieTrace (create_pie_chart (rating_exposure v) "Rating Exposure" colors_pie),
          (1%nat, 2%nat));
         (BarTrace (create_bar_chart (top_issuers v) "Top 10 Issuers" true colors_bar),
          (2%nat, 1%nat));
         (BarTrace (create_bar_chart (holdings_series (top_holdings v))
                                     "Top 10 Holdings" false colors_bar),
          (3%nat, 1%nat)) ];
     fig_layout := Some dashboard_layout;
     fig_axis_titles :=
       [ (YAxis, (2%nat, 1%nat), "Issuer"%string);
         (XAxis, (2%nat, 1%nat), "Weight (%)"%string);
         (XAxis, (3%nat, 1%nat), "Security"%string);
         (YAxis, (3%nat, 1%nat), "Weight (%)"%string) ] |}.

(** A trace sits in a subplot of its own type. *)
Definition trace_fits (fig : Figure) (tp : trace * (nat * nat)) : Prop :=
  exists span,
    subplot_at fig (fst (snd tp)) (snd (snd tp)) = Some (trace_subplot (fst tp), span).

(** The value axis of a bar chart is titled "Weight (%)" and its category
    axis carries the given other title. *)
Definition bar_axes_titled (fig : Figure) (tp : trace * (nat * nat)) : Prop :=
  match fst tp with
  | PieTrace _ => True
  | BarTrace b =>
      In (value_axis b, snd tp, "Weight (%)"%string) (fig_axis_titles fig) /\
      exists t, t <> "Weight (%)"%string /\
                In (category_axis b, snd tp, t) (fig_axis_titles fig)
  end.

(** A property of every figure among the lines of an output. *)
Definition shown_figures (P : Figure -> Prop) (out : list line) : Prop :=
  Forall (fun l => match l with ShowFigure fig => P fig | _ => True end) out.

(** Neither a figure nor an error report. *)
Definition plain_line (l : line) : bool := negb (is_show l) && negb (is_error_report l).

(** * Properties *)

(** ** Lists: subsequences and strong sortedness *)

Lemma Subseq_refl {A} (l : list A) : Subseq l l.
Proof. induction l; auto. Qed.

Lemma Subseq_In {A} (l' l : list A) (x : A) : Subseq l' l -> In x l' -> In x l.
Proof.
  induction 1; simpl; intuition.
Qed.

Lemma Subseq_filter {A} (f : A -> bool) (l : list A) : Subseq (filter f l) l.
Proof.
  induction l as [|x l IH]; simpl; auto.
  destruct (f x); auto.
Qed.

Lemma Subseq_StronglySorted {A} (R : A -> A -> Prop) (l' l : list A) :
  Subseq l' l -> StronglySorted R l -> StronglySorted R l'.
Proof.
  induction 1; intros HS.
  - constructor.
  - apply StronglySorted_inv in HS. tauto.
  - apply StronglySorted_inv in HS. destruct HS as [HS HF].
    constructor; auto.
    rewrite Forall_forall in *. eauto using Subseq_In.
Qed.

Lemma StronglySorted_weaken {A} (R R' : A -> A -> Prop) (l : list A) :
  (forall a b, R a b -> R' a b) -> StronglySorted R l -> StronglySorted R' l.
Proof.
  intros HR; induction 1 as [|x l HS IH HF]; constructor; auto.
  rewrite Forall_forall in *. auto.
Qed.

Lemma StronglySorted_snoc {A} (R : A -> A -> Prop) (l : list A) (a : A) :
  StronglySorted R l -> Forall (fun x => R x a) l -> StronglySorted R (l ++ [a]).
Proof.
  induction 1 as [|x l HS IH HF]; simpl; intros Ha.
  - repeat constructor.
  - inversion Ha; subst. constructor; auto.
    apply Forall_app; split; auto.
Qed.

Lemma StronglySorted_rev {A} (R : A -> A -> Prop) (l : list A) :
  StronglySorted R l -> StronglySorted (fun a b => R b a) (rev l).
Proof.
  induction 1 as [|x l HS IH HF]; simpl.
  - constructor.
  - apply StronglySorted_snoc; auto.
    rewrite Forall_forall in *. intros y Hy. apply HF. now apply in_rev.
Qed.

Lemma StronglySorted_app {A} (R : A -> A -> Prop) (l1 l2 : list A) :
  StronglySorted R l1 -> StronglySorted R l2 ->
  (forall a b, In a l1 -> In b l2 -> R a b) ->
  StronglySorted R (l1 ++ l2).
Proof.
  induction 1 as [|x l HS IH HF]; simpl; intros H2 Hc; auto.
  constructor.
  - apply IH; auto.
  - apply Forall_app; split; auto.
    rewrite Forall_forall. auto.
Qed.

Lemma StronglySorted_firstn {A} (R : A -> A -> Prop) (n : nat) (l : list A) :
  StronglySorted R l -> StronglySorted R (firstn n l).
Proof.
  intros HS. revert n. induction HS as [|x l HS IH HF]; intros [|n]; simpl;
    try constructor; auto.
  rewrite Forall_forall in *. intros y Hy. apply HF.
  rewrite <- (firstn_skipn n l). apply in_or_app. now left.
Qed.

(** ** The stable sort *)

Section SortingFacts.
Variable A : Type.
Variable key : A -> Q.

Lemma insert_sorted_perm (x : A) (l : list A) :
  Permutation (insert_sorted key x l) (x :: l).
Proof.
  induction l as [|y t IH]; simpl; auto.
  destruct (Qle_bool (key x) (key y)); auto.
  rewrite IH. apply perm_swap.
Qed.

Lemma stable_sort_perm (l : list A) : Permutation (stable_sort key l) l.
Proof.
  induction l as [|x t IH]; simpl; auto.
  rewrite insert_sorted_perm. auto.
Qed.

Lemma insert_sorted_asc (S : A -> A -> Prop) (x : A) (l : list A) :
  StronglySorted (asc_then key S) l -> Forall (S x) l ->
  StronglySorted (asc_then key S) (insert_sorted key x l).
Proof.
  induction l as [|y t IH]; simpl; intros HS HF.
  - repeat constructor.
  - apply StronglySorted_inv in HS. destruct HS as [HS Hy].
    inversion HF as [|? ? Sxy HFt]; subst.
    destruct (Qle_bool (key x) (key y)) eqn:E.
    + apply Qle_bool_iff in E.
      constructor; [constructor; auto|].
      constructor.
      * unfold asc_then. destruct (Qlt_le_dec (key x) (key y)); [now left|].
        right. split; [lra | assumption].
      * rewrite Forall_forall in *. intros z Hz.
        specialize (Hy z Hz). specialize (HFt z Hz). unfold asc_then in *.
        destruct (Qlt_le_dec (key x) (key z)); [now left|].
        right. split; [|assumption]. destruct Hy as [?|[? _]]; lra.
    + assert (key y < key x).
      { apply Qnot_le_lt. intros C. apply Qle_bool_iff in C. congruence. }
      constructor; auto.
      rewrite Forall_forall in *. intros z Hz.
      apply (Permutation_in _ (insert_sorted_perm x t)) in Hz.
      destruct Hz as [<-|Hz]; [now left | auto].
Qed.

Lemma stable_sort_asc (S : A -> A -> Prop) (l : list A) :
  StronglySorted S l -> StronglySorted (asc_then key S) (stable_sort key l).
Proof.
  induction 1 as [|x t HS IH HF]; simpl.
  - constructor.
  - apply insert_sorted_asc; auto.
    rewrite Forall_forall in *. intros z Hz. apply HF.
    eapply Permutation_in; [apply stable_sort_perm | exact Hz].
Qed.

Lemma rev_sort_rev_perm (l : list A) :
  Permutation (rev (stable_sort key (rev l))) l.
Proof.
  rewrite <- Permutation_rev, stable_sort_perm, <- Permutation_rev. reflexivity.
Qed.

Lemma rev_sort_rev_desc (S : A -> A -> Prop) (l : list A) :
  StronglySorted S l ->
  StronglySorted (desc_then key S) (rev (stable_sort key (rev l))).
Proof.
  intros HS.
  apply StronglySorted_rev in HS.
  apply stable_sort_asc in HS.
  apply StronglySorted_rev in HS.
  eapply StronglySorted_weaken; [|exact HS].
  unfold asc_then, desc_then. intros a b [?|[? ?]]; [now left|].
  right. split; [lra | assumption].
Qed.
End SortingFacts.

Lemma StronglySorted_app_inv {A} (R : A -> A -> Prop) (l1 l2 : list A) :
  StronglySorted R (l1 ++ l2) ->
  forall a b, In a l1 -> In b l2 -> R a b.
Proof.
  induction l1 as [|x l1 IH]; simpl; intros HS a b Ha Hb; [contradiction|].
  apply StronglySorted_inv in HS. destruct HS as [HS HF].
  destruct Ha as [<-|Ha]; [|eauto].
  rewrite Forall_forall in HF. apply HF, in_or_app. now right.
Qed.

Lemma StronglySorted_map {A B} (f : A -> B) (R : B -> B -> Prop) (l : list A) :
  StronglySorted (fun a b => R (f a) (f b)) l -> StronglySorted R (map f l).
Proof.
  induction 1 as [|x l HS IH HF]; simpl; constructor; auto.
  rewrite Forall_forall in *. intros y Hy.
  apply in_map_iff in Hy. destruct Hy as [a [<- Ha]]. auto.
Qed.

Lemma StronglySorted_always {A} (l : list A) :
  StronglySorted (fun _ _ => True) l.
Proof.
  induction l; constructor; auto. rewrite Forall_forall. auto.
Qed.



Lemma filter_partition_perm {A} (f : A -> bool) (l : list A) :
  Permutation (filter f l ++ filter (fun a => negb (f a)) l) l.
Proof.
  induction l as [|x l IH]; simpl; auto.
  destruct (f x); simpl.
  - now constructor.
  - rewrite <- Permutation_middle. now constructor.
Qed.

(** ** [sort_values] and [nlargest] *)

Section SortValuesFacts.
Variable A : Type.
Variable val : A -> option Q.

Lemma dropna_In (a : A) (l : list A) :
  In a (dropna val l) <-> In a l /\ exists q, val a = Some q.
Proof.
  unfold dropna, present. rewrite filter_In.
  destruct (val a) as [q|]; split; intros [H1 H2]; split; eauto; try discriminate.
  destruct H2; discriminate.
Qed.

Lemma isna_rows_In (a : A) (l : list A) :
  In a (isna_rows val l) <-> In a l /\ val a = None.
Proof.
  unfold isna_rows, present. rewrite filter_In.
  destruct (val a); simpl; intuition discriminate.
Qed.

Lemma sort_values_perm (ascending : bool) (l : list A) :
  Permutation (sort_values val ascending l) l.
Proof.
  unfold sort_values.
  eapply Permutation_trans; [|apply (filter_partition_perm (present val) l)].
  apply Permutation_app_tail.
  destruct ascending.
  - apply stable_sort_perm.
  - apply rev_sort_rev_perm.
Qed.

Lemma sort_values_length (ascending : bool) (l : list A) :
  List.length (sort_values val ascending l) = List.length l.
Proof. apply Permutation_length, sort_values_perm. Qed.

Lemma sort_values_In (ascending : bool) (l : list A) (a : A) :
  In a (sort_values val ascending l) <-> In a l.
Proof.
  split; apply Permutation_in;
    [|apply Permutation_sym]; apply sort_values_perm.
Qed.

Lemma sort_values_desc (S : A -> A -> Prop) (l : list A) :
  StronglySorted S l ->
  StronglySorted (desc_nan_last val S) (sort_values val false l).
Proof.
  intros HS. unfold sort_values.
  apply StronglySorted_app.
  - assert (Hd : StronglySorted S (dropna val l))
      by (eapply Subseq_StronglySorted; [apply Subseq_filter | exact HS]).
    apply (rev_sort_rev_desc (key_of val)) in Hd.
    assert (Hp : forall a, In a (rev (stable_sort (key_of val) (rev (dropna val l)))) ->
                           exists q, val a = Some q).
    { intros a Ha. apply (Permutation_in _ (rev_sort_rev_perm _ _)) in Ha.
      apply dropna_In in Ha. tauto. }
    revert Hd Hp.
    generalize (rev (stable_sort (key_of val) (rev (dropna val l)))).
    induction 1 as [|x t Ht IH HF]; intros Hp; constructor.
    + apply IH. intros a Ha. apply Hp. now right.
    + rewrite Forall_forall in *. intros y Hy.
      destruct (Hp x (or_introl eq_refl)) as [qx Ex].
      destruct (Hp y (or_intror Hy)) as [qy Ey].
      specialize (HF y Hy). unfold desc_then, desc_nan_last, key_of in *.
      rewrite Ex, Ey in *. exact HF.
  - assert (Hn : StronglySorted S (isna_rows val l))
      by (eapply Subseq_StronglySorted; [apply Subseq_filter | exact HS]).
    assert (Hp : forall a, In a (isna_rows val l) -> val a = None)
      by (intros a Ha; apply isna_rows_In in Ha; tauto).
    revert Hn Hp. generalize (isna_rows val l).
    induction 1 as [|x t Ht IH HF]; intros Hp; constructor.
    + apply IH. intros a Ha. apply Hp. now right.
    + rewrite Forall_forall in *. intros y Hy.
      specialize (HF y Hy). unfold desc_nan_last.
      rewrite (Hp x (or_introl eq_refl)), (Hp y (or_intror Hy)). exact HF.
  - intros a b Ha Hb.
    apply (Permutation_in _ (rev_sort_rev_perm _ _)) in Ha.
    apply dropna_In in Ha. destruct Ha as [_ [q Eq]].
    apply isna_rows_In in Hb. destruct Hb as [_ Eb].
    unfold desc_nan_last. now rewrite Eq, Eb.
Qed.

Lemma sort_values_asc (S : A -> A -> Prop) (l : list A) :
  StronglySorted S l ->
  StronglySorted (asc_nan_last val S) (sort_values val true l).
Proof.
  intros HS. unfold sort_values.
  apply StronglySorted_app.
  - assert (Hd : StronglySorted S (dropna val l))
      by (eapply Subseq_StronglySorted; [apply Subseq_filter | exact HS]).
    apply (stable_sort_asc (key_of val)) in Hd.
    assert (Hp : forall a, In a (stable_sort (key_of val) (dropna val l)) ->
                           exists q, val a = Some q).
    { intros a Ha. apply (Permutation_in _ (stable_sort_perm _ _)) in Ha.
      apply dropna_In in Ha. tauto. }
    revert Hd Hp.
    generalize (stable_sort (key_of val) (dropna val l)).
    induction 1 as [|x t Ht IH HF]; intros Hp; constructor.
    + apply IH. intros a Ha. apply Hp. now right.
    + rewrite Forall_forall in *. intros y Hy.
      destruct (Hp x (or_introl eq_refl)) as [qx Ex].
      destruct (Hp y (or_intror Hy)) as [qy Ey].
      specialize (HF y Hy). unfold asc_then, asc_nan_last, key_of in *.
      rewrite Ex, Ey in *. exact HF.
  - assert (Hn : StronglySorted S (isna_rows val l))
      by (eapply Subseq_StronglySorted; [apply Subseq_filter | exact HS]).
    assert (Hp : forall a, In a (isna_rows val l) -> val a = None)
      by (intros a Ha; apply isna_rows_In in Ha; tauto).
    revert Hn Hp. generalize (isna_rows val l).
    induction 1 as [|x t Ht IH HF]; intros Hp; constructor.
    + apply IH. intros a Ha. apply Hp. now right.
    + rewrite Forall_forall in *. intros y Hy.
      specialize (HF y Hy). unfold asc_nan_last.
      rewrite (Hp x (or_introl eq_refl)), (Hp y (or_intror Hy)). exact HF.
  - intros a b Ha Hb.
    apply (Permutation_in _ (stable_sort_perm _ _)) in Ha.
    apply dropna_In in Ha. destruct Ha as [_ [q Eq]].
    apply isna_rows_In in Hb. destruct Hb as [_ Eb].
    unfold asc_nan_last. now rewrite Eq, Eb.
Qed.

Lemma nlargest_length (n : nat) (l : list A) :
  List.length (nlargest val n l) = Nat.min n (List.length l).
Proof.
  unfold nlargest. now rewrite length_firstn, sort_values_length.
Qed.

Lemma nlargest_split (n : nat) (l : list A) :
  Permutation (nlargest val n l ++ nlargest_rest val n l) l.
Proof.
  unfold nlargest, nlargest_rest.
  rewrite firstn_skipn. apply sort_values_perm.
Qed.


End SortValuesFacts.

(** ** Frames and their index *)

Lemma combine_seq_increasing {W} (rows : list (Row W)) (start : nat) :
  index_increasing (combine (seq start (List.length rows)) rows).
Proof.
  revert start. induction rows as [|r rows IH]; intros start; simpl.
  - constructor.
  - constructor; [apply IH|].
    rewrite Forall_forall. intros [i r'] Hi.
    apply in_combine_l, in_seq in Hi. unfold by_index; simpl. lia.
Qed.

Lemma frame_of_increasing (df : DataFrame) : index_increasing (frame_of df).
Proof.
  unfold frame_of.
  rewrite <- (length_map (row_of (columns df)) (values df)).
  apply combine_seq_increasing.
Qed.

Lemma cell_eqb_str (c : cell) (s : string) :
  cell_eqb c (CStr s) = true <-> c = CStr s.
Proof.
  destruct c; simpl; split; try discriminate.
  - intros H. apply String.eqb_eq in H. now subst.
  - intros H. inversion H. apply String.eqb_refl.
Qed.

Lemma corporate_bonds_cons (ir : nat * Row cell) (fr : Frame cell) :
  corporate_bonds (ir :: fr) =
  if cell_eqb (SecurityType (snd ir)) (CStr "Corporate Bonds")
  then ir :: corporate_bonds fr
  else corporate_bonds fr.
Proof. reflexivity. Qed.

Lemma corporate_bonds_Subseq (fr : Frame cell) : Subseq (corporate_bonds fr) fr.
Proof.
  induction fr as [|ir fr IH]; [constructor|].
  rewrite corporate_bonds_cons.
  destruct (cell_eqb _ _); now constructor.
Qed.

Lemma corporate_bonds_In (fr : Frame cell) (ir : nat * Row cell) :
  In ir (corporate_bonds fr) <->
  In ir fr /\ SecurityType (snd ir) = CStr "Corporate Bonds".
Proof.
  induction fr as [|x fr IH]; [simpl; tauto|].
  rewrite corporate_bonds_cons.
  destruct (cell_eqb _ _) eqn:E; simpl; rewrite IH.
  - apply cell_eqb_str in E. intuition (subst; auto).
  - split; [tauto|]. intros [[->|H] Hc]; [|tauto].
    apply cell_eqb_str in Hc. congruence.
Qed.

Lemma coerce_weight_increasing (p : string -> option Q) (fr : Frame cell) :
  index_increasing fr -> index_increasing (coerce_weight p fr).
Proof.
  intros H. apply StronglySorted_map. exact H.
Qed.

Lemma filtered_increasing (p : string -> option Q) (df : DataFrame) :
  index_increasing (filtered p df).
Proof.
  apply coerce_weight_increasing.
  eapply Subseq_StronglySorted; [apply corporate_bonds_Subseq|].
  apply frame_of_increasing.
Qed.

(** ** The filter *)

(** C2.  For every table, the filter output is a subsequence of the input
    (order preserved), holds only records whose SecurityType is exactly the
    string "Corporate Bonds", and holds all of them: every subsequence of
    the input made of such records is a subsequence of the output.  The
    comparison is exact: a different case or a trailing blank does not
    match. *)
Theorem corporate_bonds_exact (fr : Frame cell) :
  Subseq (corporate_bonds fr) fr /\
  Forall is_corporate_bond (corporate_bonds fr) /\
  (forall sub, Subseq sub fr -> Forall is_corporate_bond sub ->
               Subseq sub (corporate_bonds fr)) /\
  (forall ir, In ir (corporate_bonds fr) <-> In ir fr /\ is_corporate_bond ir) /\
  cell_eqb (CStr "corporate bonds") (CStr "Corporate Bonds") = false /\
  cell_eqb (CStr "Corporate Bonds ") (CStr "Corporate Bonds") = false /\
  cell_eqb CNaN (CStr "Corporate Bonds") = false.
Proof.
  split; [apply corporate_bonds_Subseq|].
  split; [rewrite Forall_forall; intros ir H; now apply corporate_bonds_In in H|].
  split; [|split; [apply corporate_bonds_In | repeat split]].
  intros sub Hsub. induction Hsub as [l|x sub l Hsub IH|x sub l Hsub IH]; intros HF.
  - constructor.
  - rewrite corporate_bonds_cons. destruct (cell_eqb _ _); [apply Subseq_skip|]; auto.
  - inversion HF as [|? ? Hx HF']; subst.
    rewrite corporate_bonds_cons.
    apply cell_eqb_str in Hx. rewrite Hx. apply Subseq_take. auto.
Qed.

(** ** The scenario of three rows *)

Lemma coerce_weight_ext (p p' : string -> option Q) (fr : Frame cell) :
  Forall (fun ir => to_numeric p (Weight (snd ir)) = to_numeric p' (Weight (snd ir))) fr ->
  coerce_weight p fr = coerce_weight p' fr.
Proof.
  induction 1 as [|ir fr H HF IH]; simpl; [reflexivity|].
  f_equal; [|exact IH].
  unfold coerce_row. now rewrite H.
Qed.

Lemma process_data_ext (p p' : string -> option Q) (df : DataFrame) :
  filtered p df = filtered p' df -> process_data p df = process_data p' df.
Proof.
  unfold process_data, filtered, set_columns, relabel.
  destruct (_ =? _)%nat; simpl; [|reflexivity].
  intros ->. reflexivity.
Qed.

(** C1, as stated, fails: on the scenario the views are not the claimed
    ones, and the country view has a group keyed by DE. *)
Lemma scenario_views_not_claimed :
  views_of (process_data decimal_literal scenario) <> Some claimed_scenario_views /\
  option_map (fun v => map fst (country_exposure v))
    (views_of (process_data decimal_literal scenario)) = Some [CStr "US"; CStr "DE"].
Proof.
  split; [vm_compute; discriminate | vm_compute; reflexivity].
Qed.

(** C1, amended.  With any reader that reads "5" as 5 and rejects "bad",
    the scenario passes the filter with the two records A and B, B's Weight
    is absent, and the views are: TopHoldings = A with 5 then B with no
    weight; CountryExposure = US 5, DE 0; RatingExposure = AAA 5, BBB 0;
    TopIssuers = Y 0, X 5.  B adds nothing to any sum. *)
Theorem scenario_result (p : string -> option Q) :
  p "5"%string = Some 5 -> p "bad"%string = None ->
  map (fun ir => (Security (snd ir), Weight (snd ir))) (filtered p scenario)
    = [(CStr "A", Some 5); (CStr "B", None)] /\
  process_data p scenario
    = ([PrintProcessing; PrintCount 2], inr (relabel scenario, scenario_views)).
Proof.
  intros H5 Hbad.
  assert (E : filtered p scenario = filtered decimal_literal scenario).
  { unfold filtered. apply coerce_weight_ext.
    repeat constructor; simpl; [rewrite H5 | rewrite Hbad]; reflexivity. }
  split.
  - rewrite E. vm_compute. reflexivity.
  - rewrite (process_data_ext p decimal_literal scenario E).
    vm_compute. reflexivity.
Qed.

Lemma scenario_result_witness :
  map (fun ir => (Security (snd ir), Weight (snd ir))) (filtered decimal_literal scenario)
    = [(CStr "A", Some 5); (CStr "B", None)] /\
  process_data decimal_literal scenario
    = ([PrintProcessing; PrintCount 2], inr (relabel scenario, scenario_views)).
Proof.
  apply (scenario_result decimal_literal); reflexivity.
Defined.

(** ** Equality of cells *)

Lemma cell_eqb_sym (a b : cell) : cell_eqb a b = cell_eqb b a.
Proof.
  destruct a, b; simpl; auto using String.eqb_sym, Qeq_bool_comm.
Qed.

Lemma cell_eqb_refl (a : cell) : notna a = true -> cell_eqb a a = true.
Proof.
  destruct a; simpl; intros H; auto using String.eqb_refl, Qeq_bool_refl.
Qed.

Lemma cell_eqb_trans (a b c : cell) :
  cell_eqb a b = true -> cell_eqb b c = true -> cell_eqb a c = true.
Proof.
  destruct a, b, c; simpl; try discriminate.
  - intros H1 H2. apply String.eqb_eq in H1, H2. subst. apply String.eqb_refl.
  - apply Qeq_bool_trans.
Qed.

Lemma cell_eqb_notna (a b : cell) : cell_eqb a b = true -> notna a = true.
Proof. destruct a, b; simpl; auto. Qed.

Lemma ForallOrdPairs_perm {A} (R : A -> A -> Prop) (l l' : list A) :
  (forall a b, R a b -> R b a) ->
  Permutation l l' -> ForallOrdPairs R l -> ForallOrdPairs R l'.
Proof.
  intros Hsym. induction 1 as [|x l l' HP IH|x y l|l l' l'' H1 IH1 H2 IH2]; intros HF; auto.
  - inversion HF; subst. constructor; auto.
    rewrite Forall_forall in *. intros z Hz. apply H1.
    eapply Permutation_in; [apply Permutation_sym; exact HP | exact Hz].
  - inversion HF as [|? ? Hy HF']; subst.
    inversion HF' as [|? ? Hx HF'']; subst.
    inversion Hy; subst.
    repeat constructor; auto.
Qed.

(** ** Grouped sums *)


Section GroupByFacts.
Variable key : Row (option Q) -> cell.

Lemma insert_key_perm (k : cell) (ks : list cell) :
  Permutation (insert_key k ks) (k :: ks).
Proof.
  induction ks as [|k' ks IH]; simpl; auto.
  destruct (cell_leb k k'); auto.
  rewrite IH. apply perm_swap.
Qed.

Lemma sort_keys_perm (ks : list cell) : Permutation (sort_keys ks) ks.
Proof.
  induction ks as [|k ks IH]; simpl; auto.
  rewrite insert_key_perm. auto.
Qed.

Lemma uniques_incl (ks : list cell) (k : cell) : In k (uniques ks) -> In k ks.
Proof.
  induction ks as [|k' ks IH]; simpl; auto.
  destruct (existsb _ _); simpl; intuition.
Qed.

Lemma uniques_distinct (ks : list cell) :
  ForallOrdPairs distinct_cells (uniques ks).
Proof.
  induction ks as [|k ks IH]; simpl; [constructor|].
  destruct (existsb (cell_eqb k) (uniques ks)) eqn:E; auto.
  constructor; auto.
  rewrite Forall_forall. intros k' Hk'. unfold distinct_cells.
  destruct (cell_eqb k k') eqn:E'; auto.
  assert (existsb (cell_eqb k) (uniques ks) = true)
    by (apply existsb_exists; eauto).
  congruence.
Qed.

Lemma uniques_covers (ks : list cell) (k : cell) :
  In k ks -> notna k = true -> existsb (cell_eqb k) (uniques ks) = true.
Proof.
  induction ks as [|k' ks IH]; simpl; [tauto|].
  intros [->|Hin] Hk.
  - destruct (existsb (cell_eqb k) (uniques ks)) eqn:E; auto.
    simpl. now rewrite cell_eqb_refl.
  - specialize (IH Hin Hk).
    destruct (existsb (cell_eqb k') (uniques ks)); auto.
    simpl. rewrite IH. apply orb_true_r.
Qed.

Lemma group_keys_distinct (fr : Frame (option Q)) :
  ForallOrdPairs distinct_cells (group_keys key fr).
Proof.
  unfold group_keys.
  eapply ForallOrdPairs_perm;
    [|apply Permutation_sym, sort_keys_perm | apply uniques_distinct].
  unfold distinct_cells. intros a b H. now rewrite cell_eqb_sym.
Qed.

Lemma group_keys_In (fr : Frame (option Q)) (k : cell) :
  In k (group_keys key fr) ->
  notna k = true /\ exists ir, In ir fr /\ key (snd ir) = k.
Proof.
  unfold group_keys. intros H.
  apply (Permutation_in _ (sort_keys_perm _)) in H.
  apply uniques_incl, filter_In in H. destruct H as [H Hk].
  apply in_map_iff in H. destruct H as [ir [E Hir]]. eauto.
Qed.

Lemma group_keys_covers (fr : Frame (option Q)) (ir : nat * Row (option Q)) :
  In ir fr ->
  existsb (cell_eqb (key (snd ir))) (group_keys key fr) = notna (key (snd ir)).
Proof.
  intros Hir. destruct (notna (key (snd ir))) eqn:E.
  - assert (H : existsb (cell_eqb (key (snd ir)))
                  (uniques (filter notna (map (fun ir => key (snd ir)) fr))) = true).
    { apply uniques_covers; auto. apply filter_In. split; auto.
      apply in_map_iff. eauto. }
    apply existsb_exists in H. destruct H as [k [Hk Ek]].
    apply existsb_exists. exists k. split; auto.
    unfold group_keys.
    eapply Permutation_in; [apply Permutation_sym, sort_keys_perm | exact Hk].
  - destruct (existsb _ _) eqn:E'; auto.
    apply existsb_exists in E'. destruct E' as [k [_ Ek]].
    apply cell_eqb_notna in Ek. congruence.
Qed.




End GroupByFacts.

(** ** Exposure totals *)





(** ** Group keys *)

Lemma sorted_groups_In (key : Row (option Q) -> cell) (fr : Frame (option Q))
      (k : cell) (s : Q) :
  In (k, s) (sort_values series_val false (groupby_sum key fr)) <->
  In k (group_keys key fr) /\ s = sum_present (group_rows key k fr).
Proof.
  rewrite sort_values_In. unfold groupby_sum. rewrite in_map_iff.
  split.
  - intros [k' [E H]]. inversion E; subst. auto.
  - intros [H ->]. eauto.
Qed.

Lemma sorted_groups_keys (key : Row (option Q) -> cell) (fr : Frame (option Q)) :
  Permutation (map fst (sort_values series_val false (groupby_sum key fr)))
              (group_keys key fr).
Proof.
  rewrite (Permutation_map fst (sort_values_perm series_val false _)).
  unfold groupby_sum. rewrite map_map. simpl. now rewrite map_id.
Qed.

Lemma distinct_cells_NoDup (ks : list cell) :
  Forall (fun k => notna k = true) ks ->
  ForallOrdPairs distinct_cells ks -> NoDup ks.
Proof.
  intros Hn. induction 1 as [|k ks Hk HF IH]; constructor.
  - intros Hin. rewrite Forall_forall in Hk. specialize (Hk k Hin).
    inversion Hn; subst. unfold distinct_cells in Hk.
    rewrite cell_eqb_refl in Hk; auto. discriminate.
  - apply IH. now inversion Hn.
Qed.

Lemma sum_present_all_absent (fr : Frame (option Q)) :
  Forall (fun ir => Weight (snd ir) = None) fr -> sum_present fr = 0.
Proof.
  induction 1 as [|[i r] fr H HF IH]; simpl; auto.
  simpl in H. now rewrite H.
Qed.

Section ExposureKeys.
Variable key : Row (option Q) -> cell.
Variable fr : Frame (option Q).

Let view := sort_values series_val false (groupby_sum key fr).

(** The keys of a grouped view are the distinct values of the column: no
    key occurs twice, every key is a value of the column, every value of
    the column has its key, and a group whose records all lack a Weight
    is there with sum 0. *)
Lemma exposure_keys :
  NoDup (map fst view) /\
  ForallOrdPairs distinct_cells (map fst view) /\
  (forall k, In k (map fst view) ->
             exists ir, In ir fr /\ key (snd ir) = k) /\
  (forall ir, In ir fr -> notna (key (snd ir)) = true ->
              exists k, In k (map fst view) /\ cell_eqb (key (snd ir)) k = true) /\
  (forall s, In (CStr s) (map fst view) <->
             exists ir, In ir fr /\ key (snd ir) = CStr s) /\
  (forall k s, In (k, s) view -> s = sum_present (group_rows key k fr)) /\
  (forall ir, In ir fr -> notna (key (snd ir)) = true ->
              Forall (fun ir' => Weight (snd ir') = None)
                     (group_rows key (key (snd ir)) fr) ->
              exists k, In (k, 0) view /\ cell_eqb (key (snd ir)) k = true).
Proof.
  assert (HP : Permutation (map fst view) (group_keys key fr))
    by apply sorted_groups_keys.
  assert (HD : ForallOrdPairs distinct_cells (map fst view)).
  { eapply ForallOrdPairs_perm;
      [|apply Permutation_sym, HP | apply group_keys_distinct].
    unfold distinct_cells. intros a b H. now rewrite cell_eqb_sym. }
  assert (HK : forall k, In k (map fst view) ->
                         notna k = true /\ exists ir, In ir fr /\ key (snd ir) = k).
  { intros k Hk. apply (Permutation_in _ HP) in Hk.
    now apply group_keys_In in Hk. }
  assert (HC : forall ir, In ir fr -> notna (key (snd ir)) = true ->
               exists k, In k (map fst view) /\ cell_eqb (key (snd ir)) k = true).
  { intros ir Hir Hn.
    pose proof (group_keys_covers key fr ir Hir) as E. rewrite Hn in E.
    apply existsb_exists in E. destruct E as [k [Hk Ek]].
    exists k. split; auto.
    eapply Permutation_in; [apply Permutation_sym, HP | exact Hk]. }
  split; [|split; [exact HD|split; [|split; [exact HC|split; [|split]]]]].
  - apply distinct_cells_NoDup; auto.
    rewrite Forall_forall. intros k Hk. now apply HK.
  - intros k Hk. now apply HK.
  - intros s. split; [intros H; now apply HK|].
    intros [ir [Hir E]].
    destruct (HC ir Hir) as [k [Hk Ek]]; [now rewrite E|].
    rewrite E in Ek. rewrite cell_eqb_sym in Ek. apply cell_eqb_str in Ek.
    now subst.
  - intros k s H. now apply sorted_groups_In in H.
  - intros ir Hir Hn Habs.
    destruct (HC ir Hir Hn) as [k [Hk Ek]].
    exists k. split; auto.
    apply sorted_groups_In. split.
    + eapply Permutation_in; [exact HP | exact Hk].
    + symmetry. apply sum_present_all_absent.
      rewrite Forall_forall in *. intros ir' Hir'. apply Habs.
      unfold group_rows in *. rewrite filter_In in *.
      destruct Hir' as [Hin E']. split; auto.
      rewrite cell_eqb_sym in E'. rewrite cell_eqb_sym.
      eapply cell_eqb_trans; [exact Ek | exact E'].
Qed.
End ExposureKeys.

(** C10.  For every filtered, coerced table, the keys of CountryExposure
    are the distinct Country values of the table and the keys of
    RatingExposure are its distinct Rating values, each key once; a value
    whose records all lack a Weight is a group with sum 0.  Values are
    compared as Python does, so a missing cell, equal to nothing, is no
    value and forms no group. *)
Theorem exposure_key_sets (fr : Frame (option Q)) :
  (NoDup (map fst (calc_country_exposure fr)) /\
   ForallOrdPairs distinct_cells (map fst (calc_country_exposure fr)) /\
   (forall k, In k (map fst (calc_country_exposure fr)) ->
              exists ir, In ir fr /\ Country (snd ir) = k) /\
   (forall ir, In ir fr -> notna (Country (snd ir)) = true ->
               exists k, In k (map fst (calc_country_exposure fr)) /\
                         cell_eqb (Country (snd ir)) k = true) /\
   (forall s, In (CStr s) (map fst (calc_country_exposure fr)) <->
              exists ir, In ir fr /\ Country (snd ir) = CStr s) /\
   (forall ir, In ir fr -> notna (Country (snd ir)) = true ->
               Forall (fun ir' => Weight (snd ir') = None)
                      (group_rows (@Country _) (Country (snd ir)) fr) ->
               exists k, In (k, 0) (calc_country_exposure fr) /\
                         cell_eqb (Country (snd ir)) k = true)) /\
  (NoDup (map fst (calc_rating_exposure fr)) /\
   ForallOrdPairs distinct_cells (map fst (calc_rating_exposure fr)) /\
   (forall k, In k (map fst (calc_rating_exposure fr)) ->
              exists ir, In ir fr /\ Rating (snd ir) = k) /\
   (forall ir, In ir fr -> notna (Rating (snd ir)) = true ->
               exists k, In k (map fst (calc_rating_exposure fr)) /\
                         cell_eqb (Rating (snd ir)) k = true) /\
   (forall s, In (CStr s) (map fst (calc_rating_exposure fr)) <->
              exists ir, In ir fr /\ Rating (snd ir) = CStr s) /\
   (forall ir, In ir fr -> notna (Rating (snd ir)) = true ->
               Forall (fun ir' => Weight (snd ir') = None)
                      (group_rows (@Rating _) (Rating (snd ir)) fr) ->
               exists k, In (k, 0) (calc_rating_exposure fr) /\
                         cell_eqb (Rating (snd ir)) k = true)).
Proof.
  split.
  - destruct (exposure_keys (@Country _) fr) as (H1 & H2 & H3 & H4 & H5 & _ & H7).
    repeat split; auto; apply H5.
  - destruct (exposure_keys (@Rating _) fr) as (H1 & H2 & H3 & H4 & H5 & _ & H7).
    repeat split; auto; apply H5.
Qed.

(** ** Rankings *)

Lemma Forall_firstn {A} (P : A -> Prop) (n : nat) (l : list A) :
  Forall P l -> Forall P (firstn n l).
Proof.
  intros H. rewrite Forall_forall in *. intros a Ha. apply H.
  rewrite <- (firstn_skipn n l). apply in_or_app. now left.
Qed.

Section NlargestShape.
Variable A : Type.
Variable val : A -> option Q.









End NlargestShape.

(** ** Top holdings *)





(** ** Top issuers *)

Lemma series_desc (s : list (cell * Q)) :
  StronglySorted (fun a b => snd b <= snd a) (sort_values series_val false s).
Proof.
  eapply StronglySorted_weaken;
    [|apply (sort_values_desc series_val (StronglySorted_always s))].
  intros a b. unfold desc_nan_last, series_val. intros [H|[H _]]; lra.
Qed.

Lemma series_asc (s : list (cell * Q)) :
  StronglySorted (fun a b => snd a <= snd b) (sort_values series_val true s).
Proof.
  eapply StronglySorted_weaken;
    [|apply (sort_values_asc series_val (StronglySorted_always s))].
  intros a b. unfold asc_nan_last, series_val. intros [H|[H _]]; lra.
Qed.


(** ** Outcome of [process_data] *)

Lemma process_data_outcome (p : string -> option Q) (df : DataFrame) :
  process_data p df =
  if (List.length (columns df) =? 6)%nat
  then ([PrintProcessing; PrintCount (List.length (filtered p df))],
        inr (relabel df, calc_views (filtered p df)))
  else ([PrintProcessing], inl (LengthMismatch (List.length (columns df)) 6)).
Proof.
  unfold process_data, set_columns, filtered, relabel, coerce_weight.
  change (List.length LABELS) with 6%nat.
  rewrite (Nat.eqb_sym 6). destruct (_ =? 6)%nat; simpl; [|reflexivity].
  now rewrite length_map.
Qed.

Lemma frame_of_relabel (df : DataFrame) :
  frame_of (relabel df)
  = combine (seq 0 (List.length (values df))) (map row_by_position (values df)).
Proof. reflexivity. Qed.



(** ** Records whose Weight does not coerce *)







(** ** No corporate bond *)

(** C8.  For every six-column table of which no record passes the filter,
    [process_data] raises nothing and returns the four views empty; the
    count it reports is 0. *)
Theorem no_corporate_bonds_empty_views (p : string -> option Q) (df : DataFrame) :
  List.length (columns df) = 6%nat ->
  corporate_bonds (frame_of (relabel df)) = [] ->
  process_data p df = ([PrintProcessing; PrintCount 0], inr (relabel df, no_views)) /\
  raised (process_data p df) = None /\
  views_of (process_data p df) = Some no_views.
Proof.
  intros Hcols Hnone.
  rewrite process_data_outcome, Hcols. unfold raised, views_of, filtered.
  rewrite Hnone. simpl. repeat split; reflexivity.
Qed.

Lemma no_corporate_bonds_empty_views_witness :
  process_data decimal_literal government_only
  = ([PrintProcessing; PrintCount 0], inr (relabel government_only, no_views)) /\
  raised (process_data decimal_literal government_only) = None /\
  views_of (process_data decimal_literal government_only) = Some no_views.
Proof.
  apply (@no_corporate_bonds_empty_views decimal_literal government_only);
    reflexivity.
Defined.

(** ** Determinism *)



(** ** Worked examples *)

Example decimal_literal_samples :
  decimal_literal "5" = Some 5 /\
  decimal_literal "2.5" = Some (25 # 10) /\
  decimal_literal "-3" = Some (- (3)) /\
  decimal_literal "bad" = None /\
  decimal_literal "" = None /\
  decimal_literal "1.2.3" = None.
Proof. repeat split; reflexivity. Qed.

Example twelve_bonds_top_holdings :
  option_map (fun v => map (fun h => (fst h, fst (snd h))) (top_holdings v))
             (views_of (process_data decimal_literal twelve_bonds))
  = Some [ (10%nat, CStr "S11"); (9%nat, CStr "S10"); (8%nat, CStr "S09");
           (7%nat, CStr "S08"); (1%nat, CStr "S02"); (5%nat, CStr "S06");
           (4%nat, CStr "S05"); (3%nat, CStr "S04"); (11%nat, CStr "S12");
           (6%nat, CStr "S07") ].
Proof. reflexivity. Qed.

Example twelve_bonds_top_issuers :
  option_map top_issuers (views_of (process_data decimal_literal twelve_bonds))
  = Some [ (CStr "I07", 2); (CStr "I01", 1 + (3 + 0)); (CStr "I04", 4 + 0);
           (CStr "I05", 5 + 0); (CStr "I02", 7 + 0); (CStr "I06", 7 + 0);
           (CStr "I08", 8 + 0); (CStr "I09", 9 + 0); (CStr "I10", 10 + 0);
           (CStr "I11", 11 + 0) ].
Proof. vm_compute. reflexivity. Qed.

Example twelve_bonds_country_exposure :
  option_map (fun v => map fst (country_exposure v))
             (views_of (process_data decimal_literal twelve_bonds))
  = Some [CStr "US"].
Proof. reflexivity. Qed.

(** * Further properties of the pipeline *)

(** ** Order, totals and keys of the grouped views *)

(** X1.  CountryExposure and RatingExposure are sorted: no entry has a
    larger sum than an entry before it. *)
Theorem exposures_sorted_descending (fr : Frame (option Q)) :
  StronglySorted (fun a b => snd b <= snd a) (calc_country_exposure fr) /\
  StronglySorted (fun a b => snd b <= snd a) (calc_rating_exposure fr).
Proof. split; apply series_desc. Qed.


Lemma top_issuers_In (fr : Frame (option Q)) (kv : cell * Q) :
  In kv (calc_top_issuers fr) ->
  In kv (sort_values series_val false (issuer_sums fr)).
Proof.
  unfold calc_top_issuers, nlargest. intros H.
  apply sort_values_In in H.
  rewrite <- (firstn_skipn 10). apply in_or_app. now left.
Qed.

Lemma sorted_groups_notna (key : Row (option Q) -> cell) (fr : Frame (option Q)) :
  Forall (fun kv => notna (fst kv) = true)
         (sort_values series_val false (groupby_sum key fr)).
Proof.
  rewrite Forall_forall. intros [k s] H.
  apply sorted_groups_In in H. destruct H as [H _].
  apply group_keys_In in H. simpl. tauto.
Qed.

(** X3.  No grouped view has an entry for a missing key: every key of
    CountryExposure, RatingExposure and TopIssuers is a string or a
    number. *)
Theorem view_keys_never_missing (fr : Frame (option Q)) :
  Forall (fun kv => notna (fst kv) = true) (calc_country_exposure fr) /\
  Forall (fun kv => notna (fst kv) = true) (calc_rating_exposure fr) /\
  Forall (fun kv => notna (fst kv) = true) (calc_top_issuers fr).
Proof.
  split; [apply sorted_groups_notna|]. split; [apply sorted_groups_notna|].
  pose proof (sorted_groups_notna (@Issuer _) fr) as H.
  rewrite Forall_forall in *. intros kv Hkv. apply H.
  now apply top_issuers_In.
Qed.

Lemma filter_length_bound {A} (f : A -> bool) (l : list A) :
  (List.length (filter f l) <= List.length l)%nat.
Proof.
  induction l as [|a l IH]; simpl; auto. destruct (f a); simpl; lia.
Qed.

Lemma uniques_length (ks : list cell) :
  (List.length (uniques ks) <= List.length ks)%nat.
Proof.
  induction ks as [|k ks IH]; simpl; auto.
  destruct (existsb _ _); simpl; lia.
Qed.

Lemma groupby_sum_length (key : Row (option Q) -> cell) (fr : Frame (option Q)) :
  (List.length (groupby_sum key fr) <= List.length fr)%nat.
Proof.
  unfold groupby_sum, group_keys. rewrite length_map.
  rewrite (Permutation_length (sort_keys_perm _)).
  eapply Nat.le_trans; [apply uniques_length|].
  eapply Nat.le_trans; [apply filter_length_bound|].
  now rewrite length_map.
Qed.

(** X4.  No view has more entries than the filtered table has records:
    the count the pipeline prints bounds the size of all four views. *)
Theorem views_no_larger_than_table (fr : Frame (option Q)) :
  (List.length (calc_top_holdings fr) <= List.length fr)%nat /\
  (List.length (calc_country_exposure fr) <= List.length fr)%nat /\
  (List.length (calc_rating_exposure fr) <= List.length fr)%nat /\
  (List.length (calc_top_issuers fr) <= List.length fr)%nat.
Proof.
  unfold calc_top_holdings, calc_country_exposure, calc_rating_exposure,
    calc_top_issuers.
  rewrite length_map, nlargest_length, !sort_values_length, nlargest_length.
  pose proof (groupby_sum_length (@Country _) fr).
  pose proof (groupby_sum_length (@Rating _) fr).
  pose proof (groupby_sum_length (@Issuer _) fr).
  repeat split; lia.
Qed.

(** ** Sums of non-negative weights *)






(** ** Records listed in TopHoldings *)

Lemma index_increasing_NoDup {W} (fr : Frame W) :
  index_increasing fr -> NoDup (map fst fr).
Proof.
  induction 1 as [|ir fr HS IH HF]; simpl; constructor; auto.
  intros Hin. apply in_map_iff in Hin. destruct Hin as [ir' [E Hir']].
  rewrite Forall_forall in HF. specialize (HF ir' Hir').
  unfold by_index in HF. lia.
Qed.

(** X6.  TopHoldings lists records of the filtered table, each at most
    once: its entries carry pairwise different row positions, and every
    entry is the Security and Weight of the record at that position. *)
Theorem top_holdings_distinct_records (p : string -> option Q) (df : DataFrame) :
  NoDup (map fst (calc_top_holdings (filtered p df))) /\
  Forall (fun h => exists ir, In ir (filtered p df) /\ h = holding ir)
         (calc_top_holdings (filtered p df)).
Proof.
  pose proof (index_increasing_NoDup (filtered_increasing p df)) as Hnd.
  generalize dependent (filtered p df). intros fr Hnd.
  unfold calc_top_holdings. split.
  - rewrite map_map. simpl.
    rewrite <- (Permutation_map fst (nlargest_split row_weight 10 fr)) in Hnd.
    rewrite map_app in Hnd. now apply NoDup_app_remove_r in Hnd.
  - rewrite Forall_forall. intros h Hh.
    apply in_map_iff in Hh. destruct Hh as [ir [<- Hir]].
    exists ir. split; auto.
    unfold nlargest in Hir.
    apply (sort_values_In row_weight false fr ir).
    rewrite <- (firstn_skipn 10). apply in_or_app. now left.
Qed.

(** ** TopIssuers when no two sums are equal *)

Lemma ForallOrdPairs_firstn {A} (R : A -> A -> Prop) (n : nat) (l : list A) :
  ForallOrdPairs R l -> ForallOrdPairs R (firstn n l).
Proof.
  intros H. revert n. induction H as [|a l Ha HF IH]; intros [|n]; simpl;
    try constructor; auto.
  now apply Forall_firstn.
Qed.

Lemma StronglySorted_and {A} (R D : A -> A -> Prop) (l : list A) :
  StronglySorted R l -> ForallOrdPairs D l ->
  StronglySorted (fun a b => R a b /\ D a b) l.
Proof.
  induction 1 as [|a l HS IH HF]; intros HD; constructor;
    inversion HD as [|? ? Ha HD']; subst; auto.
  rewrite Forall_forall in *. auto.
Qed.

Lemma strictly_sorted_unique (l1 l2 : list (cell * Q)) :
  StronglySorted (fun a b => snd a < snd b) l1 ->
  StronglySorted (fun a b => snd a < snd b) l2 ->
  Permutation l1 l2 -> l1 = l2.
Proof.
  intros H1. revert l2. induction H1 as [|x t1 HS1 IH HF1]; intros l2 H2 HP.
  - apply Permutation_nil in HP. now subst.
  - destruct l2 as [|y t2]; [apply Permutation_sym, Permutation_nil in HP; discriminate|].
    apply StronglySorted_inv in H2. destruct H2 as [HS2 HF2].
    rewrite Forall_forall in HF1, HF2.
    assert (E : x = y).
    { assert (Hx : In x (y :: t2)) by (eapply Permutation_in; [exact HP | now left]).
      assert (Hy : In y (x :: t1))
        by (eapply Permutation_in; [apply Permutation_sym; exact HP | now left]).
      destruct Hx as [Hx|Hx]; [now subst|].
      destruct Hy as [Hy|Hy]; [now subst|].
      specialize (HF1 y Hy). specialize (HF2 x Hx). lra. }
    subst y. f_equal. apply IH; auto.
    eapply Permutation_cons_inv; exact HP.
Qed.

(** X7.  When the per-issuer sums are pairwise different, TopIssuers is the
    ten largest sums read backwards: its last entry is the largest issuer,
    the one before it the second largest, and so on.  (Equal sums keep
    their order instead of being reversed.) *)
Theorem top_issuers_reverses_ranking (fr : Frame (option Q)) :
  ForallOrdPairs different_sums (issuer_sums fr) ->
  calc_top_issuers fr = rev (nlargest series_val 10 (issuer_sums fr)).
Proof.
  intros Hd. unfold calc_top_issuers. fold (issuer_sums fr).
  assert (Hsym : forall a b, different_sums a b -> different_sums b a)
    by (unfold different_sums; intros a b H E; apply H; now symmetry).
  assert (HdN : ForallOrdPairs different_sums (nlargest series_val 10 (issuer_sums fr))).
  { unfold nlargest. apply ForallOrdPairs_firstn.
    eapply ForallOrdPairs_perm;
      [exact Hsym | apply Permutation_sym, sort_values_perm | exact Hd]. }
  assert (HdA : ForallOrdPairs different_sums
                  (sort_values series_val true (nlargest series_val 10 (issuer_sums fr)))).
  { eapply ForallOrdPairs_perm;
      [exact Hsym | apply Permutation_sym, sort_values_perm | exact HdN]. }
  pose proof (StronglySorted_and (series_asc _) HdA) as HA.
  pose proof (StronglySorted_and
                (StronglySorted_firstn 10 (series_desc (issuer_sums fr))) HdN) as HN.
  apply strictly_sorted_unique.
  - eapply StronglySorted_weaken; [|exact HA].
    unfold different_sums. intros a b [H1 H2].
    destruct (Qlt_le_dec (snd a) (snd b)); auto.
    exfalso. apply H2. lra.
  - apply StronglySorted_rev.
    eapply StronglySorted_weaken; [|exact HN].
    unfold different_sums. intros a b [H1 H2].
    destruct (Qlt_le_dec (snd b) (snd a)); auto.
    exfalso. apply H2. lra.
  - rewrite sort_values_perm. apply Permutation_rev.
Qed.

Lemma top_issuers_reverses_ranking_witness :
  calc_top_issuers (filtered decimal_literal scenario)
  = rev (nlargest series_val 10 (issuer_sums (filtered decimal_literal scenario))).
Proof.
  apply (@top_issuers_reverses_ranking (filtered decimal_literal scenario)).
  vm_compute. repeat constructor. intros H. discriminate H.
Defined.

(** ** What the views depend on *)

Lemma corporate_rows_from (rows : list (list cell)) (start : nat) :
  map snd (corporate_bonds
             (combine (seq start (List.length rows)) (map row_by_position rows)))
  = map row_by_position (filter is_corporate_row rows).
Proof.
  revert start. induction rows as [|r rows IH]; intros start; [reflexivity|].
  simpl combine. rewrite corporate_bonds_cons. simpl snd. simpl filter.
  change (SecurityType (row_by_position r)) with (nth 5 r CNaN).
  change (cell_eqb (nth 5 r CNaN) (CStr "Corporate Bonds"))
    with (is_corporate_row r).
  destruct (is_corporate_row r); simpl; now rewrite IH.
Qed.

Lemma filtered_rows (p : string -> option Q) (df : DataFrame) :
  map snd (filtered p df)
  = map (coerce_row p) (map row_by_position (filter is_corporate_row (values df))).
Proof.
  unfold filtered, coerce_weight. rewrite frame_of_relabel.
  rewrite map_map. simpl.
  rewrite <- corporate_rows_from with (start := 0%nat).
  now rewrite map_map.
Qed.









(** X9.  [process_data] always prints that it is processing; on a table
    of six columns it then prints the number of rows whose sixth cell is
    "Corporate Bonds", whatever their Weight, and on any other table it
    prints nothing more.  The count is at most the number of rows. *)
Theorem reported_count (p : string -> option Q) (df : DataFrame) :
  fst (process_data p df)
  = (if (List.length (columns df) =? 6)%nat
     then [PrintProcessing;
           PrintCount (List.length (filter is_corporate_row (values df)))]
     else [PrintProcessing]) /\
  (List.length (filter is_corporate_row (values df)) <= List.length (values df))%nat.
Proof.
  split; [|apply filter_length_bound].
  rewrite process_data_outcome.
  destruct (_ =? 6)%nat; simpl; [|reflexivity].
  rewrite <- (length_map snd (filtered p df)), filtered_rows, !length_map.
  reflexivity.
Qed.

(** * Properties of the charts *)

Lemma pull_beyond_three (start n : nat) :
  (3 <= start)%nat ->
  map (fun i => if (i <? 3)%nat then 1 # 10 else 0) (seq start n) = repeat 0 n.
Proof.
  revert start. induction n as [|n IH]; intros start H; simpl; auto.
  destruct (Nat.ltb_spec start 3); [lia|].
  f_equal. apply IH. lia.
Qed.

Lemma combine_fst_snd {A B} (l : list (A * B)) :
  combine (map fst l) (map snd l) = l.
Proof.
  induction l as [|[a b] l IH]; simpl; auto. now rewrite IH.
Qed.

Lemma flat_tail (vs : list Q) :
  filter (fun vp : Q * Q => Qeq_bool (snd vp) 0) (combine vs (repeat 0 (List.length vs)))
  = combine vs (repeat 0 (List.length vs)) /\
  filter (fun vp : Q * Q => negb (Qeq_bool (snd vp) 0))
         (combine vs (repeat 0 (List.length vs))) = [].
Proof.
  induction vs as [|v vs [IH1 IH2]]; simpl; auto.
  now rewrite IH1, IH2.
Qed.

Lemma combine_repeat_fst (vs : list Q) (z : Q) :
  map fst (combine vs (repeat z (List.length vs))) = vs.
Proof.
  induction vs as [|v vs IH]; simpl; auto. now rewrite IH.
Qed.

Lemma pie_split (data : list (cell * Q)) (title : string) (colors : list string) :
  pulled_values (create_pie_chart data title colors) = firstn 3 (map snd data) /\
  flat_values (create_pie_chart data title colors) = skipn 3 (map snd data).
Proof.
  unfold pulled_values, flat_values, create_pie_chart; simpl.
  destruct data as [|a [|b [|c rest]]]; try (split; reflexivity).
  simpl. rewrite (pull_beyond_three (List.length rest) (le_n 3)).
  rewrite <- (length_map snd rest).
  destruct (flat_tail (map snd rest)) as [E1 E2].
  rewrite E1, E2, combine_repeat_fst. split; reflexivity.
Qed.

(** X10.  A pie chart gets one label, one value and one pull per entry of
    its data, label and value paired as in the data; the slices it pulls
    out are exactly the first three of the data (all of them when there
    are fewer), by 0.1 each, and no other slice is pulled. *)
Theorem pie_pulls_first_three (data : list (cell * Q)) (title : string)
        (colors : list string) :
  combine (pie_labels (create_pie_chart data title colors))
          (pie_values (create_pie_chart data title colors)) = data /\
  List.length (pie_pull (create_pie_chart data title colors)) = List.length data /\
  pie_pull (create_pie_chart data title colors)
  = repeat (1 # 10) (Nat.min 3 (List.length data))
    ++ repeat 0 (List.length data - 3) /\
  pulled_values (create_pie_chart data title colors) = firstn 3 (map snd data) /\
  flat_values (create_pie_chart data title colors) = skipn 3 (map snd data).
Proof.
  split; [apply combine_fst_snd|].
  split; [simpl; now rewrite length_map, length_seq|].
  split; [|apply pie_split].
  simpl. destruct data as [|a [|b [|c rest]]]; try reflexivity.
  simpl. rewrite (pull_beyond_three (List.length rest) (le_n 3)).
  now rewrite Nat.sub_0_r.
Qed.

Lemma pulled_dominate (data : list (cell * Q)) (title : string)
      (colors : list string) :
  StronglySorted (fun a b => snd b <= snd a) data ->
  Forall (fun v => Forall (fun u => u <= v)
                          (flat_values (create_pie_chart data title colors)))
         (pulled_values (create_pie_chart data title colors)).
Proof.
  intros HS. destruct (pie_split data title colors) as [-> ->].
  assert (HS' : StronglySorted (fun u v : Q => v <= u)
                               (firstn 3 (map snd data) ++ skipn 3 (map snd data))).
  { rewrite firstn_skipn. apply StronglySorted_map. exact HS. }
  rewrite Forall_forall. intros v Hv. rewrite Forall_forall. intros u Hu.
  exact (StronglySorted_app_inv _ _ HS' v u Hv Hu).
Qed.

(** X11.  In the pies of the dashboard the pulled slices are the largest:
    in the pie of CountryExposure and in the pie of RatingExposure, every
    pulled slice is at least as large as every slice that is not pulled. *)
Theorem pulled_slices_are_largest (fr : Frame (option Q)) (title : string)
        (colors : list string) :
  Forall (fun v => Forall (fun u => u <= v)
            (flat_values (create_pie_chart (calc_country_exposure fr) title colors)))
         (pulled_values (create_pie_chart (calc_country_exposure fr) title colors)) /\
  Forall (fun v => Forall (fun u => u <= v)
            (flat_values (create_pie_chart (calc_rating_exposure fr) title colors)))
         (pulled_values (create_pie_chart (calc_rating_exposure fr) title colors)).
Proof.
  split; apply pulled_dominate; apply series_desc.
Qed.

(** X12.  A bar chart loses no point and swaps none: read back from its
    axes, the bars are the data, entry by entry.  A horizontal chart has
    the categories on y and the values on x, a vertical chart the other
    way round, and in both the bar labels are the values. *)
Theorem bar_chart_points {V : Type} (data : list (cell * V)) (title : string)
        (is_horizontal : bool) (colors : list string) :
  bar_points (create_bar_chart data title is_horizontal colors) = Some data /\
  bar_text (create_bar_chart data title is_horizontal colors) = map snd data /\
  category_axis (create_bar_chart data title is_horizontal colors)
  = (if is_horizontal then YAxis else XAxis) /\
  value_axis (create_bar_chart data title is_horizontal colors)
  = (if is_horizontal then XAxis else YAxis) /\
  bar_orientation (create_bar_chart data title is_horizontal colors)
  = (if is_horizontal then "h" else "v")%string.
Proof.
  destruct is_horizontal; unfold bar_points; simpl;
    rewrite combine_fst_snd; repeat split; reflexivity.
Qed.

(** X13.  The bar charts of the dashboard never have more bars than
    [colors_bar] has colours: both TopIssuers and TopHoldings have at most
    10 entries, and there are 10 colours. *)
Theorem bars_within_colors (fr : Frame (option Q)) (t1 t2 : string) (h1 h2 : bool) :
  (List.length (bar_text (create_bar_chart (calc_top_issuers fr) t1 h1 colors_bar))
   <= List.length (bar_marker_color
                     (create_bar_chart (calc_top_issuers fr) t1 h1 colors_bar)))%nat /\
  (List.length (bar_text (create_bar_chart (holdings_series (calc_top_holdings fr))
                                           t2 h2 colors_bar))
   <= List.length (bar_marker_color
                     (create_bar_chart (holdings_series (calc_top_holdings fr))
                                       t2 h2 colors_bar)))%nat.
Proof.
  simpl. unfold holdings_series, calc_top_issuers, calc_top_holdings.
  rewrite !length_map, sort_values_length, !nlargest_length. lia.
Qed.

(** * Properties of the dashboard *)

Section DashboardFacts.
Variable p : string -> option Q.
Variable read_excel : list Byte.byte -> nat -> string + DataFrame.

Lemma create_dashboard_outcome (uploaded : list (string * list Byte.byte)) :
  create_dashboard p read_excel uploaded =
  match uploaded with
  | [] =>
      ([PrintCreating; PrintPleaseUpload; PrintErrorOccurred StopIteration;
        PrintCheckFile], inr tt)
  | (_, content) :: _ =>
      match read_excel content 6 with
      | inl msg =>
          ([PrintCreating; PrintPleaseUpload; PrintErrorOccurred (ReadFailure msg);
            PrintCheckFile], inr tt)
      | inr df =>
          if (List.length (columns df) =? 6)%nat
          then ([PrintCreating; PrintPleaseUpload; Printed PrintProcessing;
                 Printed (PrintCount (List.length (filtered p df)));
                 PrintDisplaying;
                 ShowFigure (dashboard_figure (calc_views (filtered p df)))], inr tt)
          else ([PrintCreating; PrintPleaseUpload; Printed PrintProcessing;
                 PrintErrorOccurred
                   (ProcessFailure (LengthMismatch (List.length (columns df)) 6));
                 PrintCheckFile], inr tt)
      end
  end.
Proof.
  unfold create_dashboard, load_data.
  destruct uploaded as [|[name content] rest]; [reflexivity|].
  simpl. destruct (read_excel content 6) as [msg|df]; [reflexivity|].
  simpl. rewrite process_data_outcome.
  destruct (List.length (columns df) =? 6)%nat; reflexivity.
Qed.

(** X14.  [create_dashboard] lets no exception out: whatever is uploaded
    and whatever the reading gives, it returns normally. *)
Theorem create_dashboard_never_raises (uploaded : list (string * list Byte.byte)) :
  snd (create_dashboard p read_excel uploaded) = inr tt.
Proof.
  rewrite create_dashboard_outcome.
  destruct uploaded as [|[name content] rest]; [reflexivity|].
  destruct (read_excel content 6) as [msg|df]; [reflexivity|].
  destruct (_ =? 6)%nat; reflexivity.
Qed.


(** X16.  The output of the dashboard ends in one of two ways: with the
    message that the dashboard was created followed by the figure, or with
    the report of the error followed by the advice to check the file.
    Before that ending there is neither a figure nor an error report: a
    figure is never displayed after an error, and no error is reported
    once the figure is displayed. *)
Theorem dashboard_output_ending (uploaded : list (string * list Byte.byte)) :
  (exists body fig,
      fst (create_dashboard p read_excel uploaded)
      = body ++ [PrintDisplaying; ShowFigure fig] /\
      forallb plain_line body = true) \/
  (exists body e,
      fst (create_dashboard p read_excel uploaded)
      = body ++ [PrintErrorOccurred e; PrintCheckFile] /\
      forallb plain_line body = true).
Proof.
  rewrite create_dashboard_outcome.
  destruct uploaded as [|[name content] rest].
  - right. exists [PrintCreating; PrintPleaseUpload], StopIteration. split; reflexivity.
  - destruct (read_excel content 6) as [msg|df].
    + right. exists [PrintCreating; PrintPleaseUpload], (ReadFailure msg).
      split; reflexivity.
    + destruct (List.length (columns df) =? 6)%nat.
      * left.
        exists [PrintCreating; PrintPleaseUpload; Printed PrintProcessing;
                Printed (PrintCount (List.length (filtered p df)))],
          (dashboard_figure (calc_views (filtered p df))).
        split; reflexivity.
      * right.
        exists [PrintCreating; PrintPleaseUpload; Printed PrintProcessing],
          (ProcessFailure (LengthMismatch (List.length (columns df)) 6)).
        split; reflexivity.
Qed.

Lemma shown_figures_outcome (P : Figure -> Prop)
      (uploaded : list (string * list Byte.byte)) :
  (forall v, P (dashboard_figure v)) ->
  shown_figures P (fst (create_dashboard p read_excel uploaded)).
Proof.
  intros HP. rewrite create_dashboard_outcome. unfold shown_figures.
  destruct uploaded as [|[name content] rest]; [repeat constructor|].
  destruct (read_excel content 6) as [msg|df]; [repeat constructor|].
  destruct (_ =? 6)%nat; repeat constructor. apply HP.
Qed.

(** X17.  Every figure the dashboard displays holds four traces, in four
    different grid positions, each in a subplot of its own type: the two
    pies in the domain subplots (1,1) and (1,2), the two bar charts in the
    xy subplots (2,1) and (3,1).  No [add_trace] is refused. *)
Theorem dashboard_traces_fit (uploaded : list (string * list Byte.byte)) :
  shown_figures
    (fun fig =>
       map (fun tp => (trace_subplot (fst tp), snd tp)) (fig_traces fig)
       = [ (Domain, (1%nat, 1%nat)); (Domain, (1%nat, 2%nat));
           (XY, (2%nat, 1%nat)); (XY, (3%nat, 1%nat)) ] /\
       Forall (trace_fits fig) (fig_traces fig) /\
       NoDup (map snd (fig_traces fig)))
    (fst (create_dashboard p read_excel uploaded)).
Proof.
  apply shown_figures_outcome. intros v.
  split; [reflexivity|]. split.
  - repeat constructor; unfold trace_fits; simpl; eauto.
  - simpl. repeat constructor; simpl; intuition congruence.
Qed.

(** X18.  In every figure the dashboard displays, the axis titles follow
    the orientation of the bar charts: the axis along which a bar chart
    has its values is titled "Weight (%)", and the axis along which it
    lists its categories carries the other title (Issuer, Security). *)
Theorem dashboard_axis_titles_follow_orientation
        (uploaded : list (string * list Byte.byte)) :
  shown_figures
    (fun fig => Forall (bar_axes_titled fig) (fig_traces fig))
    (fst (create_dashboard p read_excel uploaded)).
Proof.
  apply shown_figures_outcome. intros v.
  unfold dashboard_figure, bar_axes_titled; simpl.
  constructor; [exact I|]. constructor; [exact I|].
  constructor.
  { simpl. split; [auto|].
    exists "Issuer"%string. split; [discriminate | auto]. }
  constructor; [|constructor].
  simpl. split; [auto 6|].
  exists "Security"%string. split; [discriminate | auto 6].
Qed.

End DashboardFacts.


(** * Entries of TopIssuers and causes of failure *)


(** X21.  The error the dashboard reports is the one that stopped it:
    StopIteration when nothing was uploaded, the reader's failure when the
    first file does not read, and the length mismatch, with the number of
    columns found, when the table read has not six columns. *)
Theorem dashboard_reports_cause (p : string -> option Q)
        (read_excel : list Byte.byte -> nat -> string + DataFrame) :
  In (PrintErrorOccurred StopIteration) (fst (create_dashboard p read_excel [])) /\
  (forall name content rest msg,
      read_excel content 6%nat = inl msg ->
      In (PrintErrorOccurred (ReadFailure msg))
         (fst (create_dashboard p read_excel ((name, content) :: rest)))) /\
  (forall name content rest df,
      read_excel content 6%nat = inr df ->
      List.length (columns df) <> 6%nat ->
      In (PrintErrorOccurred
            (ProcessFailure (LengthMismatch (List.length (columns df)) 6)))
         (fst (create_dashboard p read_excel ((name, content) :: rest)))).
Proof.
  split; [rewrite create_dashboard_outcome; simpl; auto|].
  split.
  - intros name content rest msg Er.
    rewrite create_dashboard_outcome, Er. simpl. auto.
  - intros name content rest df Er Ec.
    rewrite create_dashboard_outcome, Er.
    apply Nat.eqb_neq in Ec. rewrite Ec. simpl. auto 6.
Qed.
